(** * Property & Agent dashboard (app.py): fetch, merge, enrich, filter

    A shallow embedding of the data pipeline of [app.py] and the
    properties of its specification.

    - A pandas [DataFrame] is an ordered list of column labels with an
      ordered list of rows; a row holds one cell per column, by position.
    - The pandas calls the script makes ([df[cols]], [rename], [pd.merge],
      [fillna], boolean-mask selection, [unique], [empty]) are embedded
      with the semantics of the pandas documentation, including the
      [KeyError] they raise on an absent label.
    - [pd.merge] compares the two key columns in one dtype: numbers as
      float64 unless both columns are integer columns. The dtype of a
      column is not carried by its values, so what [pd.merge] decides
      from the dtypes is a parameter of the merge.
    - Streamlit calls are events written to an output trace; [st.stop()]
      ends the run; [st.cache_data(ttl=300)] is a map from the call's
      arguments to the stored result and the time it was stored.
    - The database is an oracle answering each connection attempt. *)

From stdpp Require Import gmap strings list pretty.
From Stdlib Require Import ZArith Lia.

Open Scope string_scope.
Open Scope list_scope.

(** ** Values, rows and frames *)

(** A cell of a result set: text, a number, or null (None / NaN). *)
Inductive value : Type :=
  | VText (s : string)
  | VNum (n : Z)
  | VNull.

Abbreviation row := (list value).

Record frame : Type := Frame {
  columns : list string;
  rows : list row
}.

(** [pd.DataFrame()] *)
Definition empty_frame : frame := Frame [] [].

(** [df.empty]: true when either axis has length 0. *)
Definition frame_empty (df : frame) : bool :=
  match columns df, rows df with
  | [], _ => true
  | _, [] => true
  | _, _ => false
  end.

(** [len(df)] *)
Definition frame_len (df : frame) : nat := length (rows df).

(** Every row has one cell per column. *)
Definition well_formed (df : frame) : Prop :=
  Forall (fun r : row => length r = length (columns df)) (rows df).

(** [df.columns.get_loc(c)]: position of the first column labelled [c]. *)
Fixpoint get_loc (c : string) (cols : list string) : option nat :=
  match cols with
  | [] => None
  | c' :: rest => if String.eqb c c' then Some 0 else S <$> get_loc c rest
  end.

(** [c in df.columns] *)
Definition has_column (df : frame) (c : string) : bool :=
  match get_loc c (columns df) with Some _ => true | None => false end.

(** The cell at position [i] of a row. *)
Definition cell (i : nat) (r : row) : value := default VNull (r !! i).

(** Elementwise [==] of pandas: null equals nothing, not even null, and
    values of different kinds are unequal. *)
Definition value_eqb (a b : value) : bool :=
  match a, b with
  | VText s, VText t => String.eqb s t
  | VNum m, VNum n => Z.eqb m n
  | _, _ => false
  end.

(** Equality of two values as hashing sees it ([unique], and the join
    keys of [pd.merge] once they are brought to one dtype): as [==], except
    that null equals null. *)
Definition key_match (a b : value) : bool :=
  match a, b with
  | VNull, VNull => true
  | _, _ => value_eqb a b
  end.

(** The float64 nearest to an integer in the range of float64 (ties to
    even): the integer itself up to 2^53 in magnitude, beyond that a
    multiple of a power of two. *)
Definition to_float64 (z : Z) : Z :=
  let a := Z.abs z in
  let e := (Z.log2 a - 52)%Z in
  if (e <=? 0)%Z then z
  else
    let q := Z.shiftr a e in
    let r := (a - Z.shiftl q e)%Z in
    let half := Z.shiftl 1 (e - 1) in
    let q' := if (half <? r)%Z || ((r =? half)%Z && Z.odd q) then (q + 1)%Z else q in
    (Z.sgn z * Z.shiftl q' e)%Z.

(** A join key as [pd.merge] compares it: a number is cast to float64
    when the two key columns are compared as float64. *)
Definition cast_key (as_float : bool) (v : value) : value :=
  match v with
  | VNum n => if as_float then VNum (to_float64 n) else v
  | _ => v
  end.

(** [labels.duplicated()] before and after the renaming by suffix: the
    new labels that repeat an earlier new label where the old label did
    not repeat an earlier old one. *)
Fixpoint suffix_duplicates (seen_old seen_new orig renamed : list string) : list string :=
  match orig, renamed with
  | o :: os, r :: rs =>
      (if existsb (String.eqb r) seen_new && negb (existsb (String.eqb o) seen_old)
       then [r] else [])
        ++ suffix_duplicates (o :: seen_old) (r :: seen_new) os rs
  | _, _ => []
  end.

(** ** Exceptions *)

Inductive exn : Type :=
  | KeyError (labels : list string)
  | ValueError (msg : string)
  | OtherError (msg : string).

(** [str(e)], up to the wording pandas gives a [KeyError]. *)
Definition exn_str (e : exn) : string :=
  match e with
  | KeyError labels => String.concat ", " labels
  | ValueError msg => msg
  | OtherError msg => msg
  end.

(** Result of a pandas call: a value or a raised exception. *)
Inductive result (A : Type) : Type :=
  | Ok (a : A)
  | Raise (e : exn).
Arguments Ok {A} a.
Arguments Raise {A} e.

Definition result_bind {A B : Type} (x : result A) (k : A -> result B) : result B :=
  match x with
  | Ok a => k a
  | Raise e => Raise e
  end.

Notation "'do' x <- c1 ; c2" := (result_bind c1 (fun x => c2))
  (at level 10, x name, c1 at level 100, c2 at level 200).

(** ** pandas operations used by the script *)

(** [df[cols]] for a list of labels: [KeyError] names the absent ones. *)
Definition getitem_columns (df : frame) (cols : list string) : result frame :=
  match List.filter (fun c => negb (has_column df c)) cols with
  | [] =>
      let locs := omap (fun c => get_loc c (columns df)) cols in
      Ok (Frame cols (map (fun r => map (fun i => cell i r) locs) (rows df)))
  | missing => Raise (KeyError missing)
  end.

Fixpoint assoc (c : string) (mapping : list (string * string)) : option string :=
  match mapping with
  | [] => None
  | (k, v) :: rest => if String.eqb c k then Some v else assoc c rest
  end.

(** [df.rename(columns=mapping)]: only the labels change. *)
Definition rename (mapping : list (string * string)) (df : frame) : frame :=
  Frame (map (fun c => default c (assoc c mapping)) (columns df)) (rows df).

(** [s.fillna(v)] on one cell. *)
Definition fillna (v x : value) : value :=
  match x with
  | VNull => v
  | _ => x
  end.

(** [df[c] = df[c].fillna(v)] *)
Definition fillna_column (c : string) (v : value) (df : frame) : result frame :=
  match get_loc c (columns df) with
  | Some i => Ok (Frame (columns df) (map (alter (fillna v) i) (rows df)))
  | None => Raise (KeyError [c])
  end.

(** [df[df[c] == v]]: boolean-mask selection on column [c]. *)
Definition select_eq (c : string) (v : value) (df : frame) : result frame :=
  match get_loc c (columns df) with
  | Some i =>
      Ok (Frame (columns df) (List.filter (fun r => value_eqb (cell i r) v) (rows df)))
  | None => Raise (KeyError [c])
  end.

Fixpoint dedup (seen : list value) (l : list value) : list value :=
  match l with
  | [] => []
  | x :: rest =>
      if existsb (key_match x) seen then dedup seen rest
      else x :: dedup (x :: seen) rest
  end.

(** [list(df[c].unique())]: distinct values in order of first appearance. *)
Definition unique (i : nat) (df : frame) : list value :=
  dedup [] (map (cell i) (rows df)).

Section Merge.

(** The dtype check [pd.merge] makes on the two key columns before it
    joins (it raises [ValueError] for an object column against a numeric
    one). Its outcome depends on the dtypes [read_sql] inferred, which
    the value model does not carry, so it is a parameter. *)
Variable keys_mergeable : list value -> list value -> bool.

(** Whether [pd.merge] compares the two key columns as float64: it does
    for numeric columns unless both are integer columns, and an integer
    column of the database that holds a null is read as float64. This too
    depends on the dtypes, so it is a parameter. *)
Variable keys_as_float : list value -> list value -> bool.

(** A non-key label carried by both frames gets a suffix. *)
Definition suffix_overlap (key : string) (others : list string) (sfx c : string) : string :=
  if String.eqb c key then c
  else if existsb (String.eqb c) others then c +:+ sfx
  else c.

(** The rows [pd.merge(how='left')] emits for one left row: one per
    matching right row, in the right frame's order, or a single row
    padded with nulls when nothing matches. *)
Definition join_row (as_float : bool) (i j width : nat) (right_rows : list row) (l : row)
  : list row :=
  match List.filter
          (fun r => key_match (cast_key as_float (cell i l)) (cast_key as_float (cell j r)))
          right_rows with
  | [] => [l ++ replicate width VNull]
  | ms => map (fun r => l ++ delete j r) ms
  end.

(** [pd.merge(left, right, on=key, how='left')]: the left frame's
    columns, then the right frame's without its key column. A suffix that
    makes two labels equal is refused ([MergeError], a [ValueError], as
    pandas does from version 2.0). *)
Definition merge_left (left right : frame) (key : string) : result frame :=
  match get_loc key (columns left), get_loc key (columns right) with
  | Some i, Some j =>
      let lk := map (cell i) (rows left) in
      let rk := map (cell j) (rows right) in
      if keys_mergeable lk rk then
        let rrest := delete j (columns right) in
        let llabels := map (suffix_overlap key (columns right) "_x") (columns left) in
        let rlabels := map (suffix_overlap key (columns left) "_y") rrest in
        match suffix_duplicates [] [] (columns left) llabels
                ++ suffix_duplicates [] [] rrest rlabels with
        | [] =>
            Ok (Frame (llabels ++ rlabels)
                      (flat_map (join_row (keys_as_float lk rk) i j (length rrest)
                                          (rows right))
                                (rows left)))
        | _ => Raise (ValueError "Passing 'suffixes' which cause duplicate columns is not allowed.")
        end
      else Raise (ValueError "You are trying to merge on incompatible key columns")
  | _, _ => Raise (KeyError [key])
  end.

(** ** Join-and-Enrich (app.py lines 94-110) *)

Definition agent_cols_to_merge : list string :=
  ["id"; "companyName"; "email"; "phoneNumber"].

Definition agent_renames : list (string * string) :=
  [("id", "agentId");
   ("companyName", "agent_companyName");
   ("email", "agent_email");
   ("phoneNumber", "agent_phoneNumber")].

(** [agent_df[agent_cols_to_merge].rename(columns={...})] *)
Definition select_agent_columns (agent_df : frame) : result frame :=
  do sel <- getitem_columns agent_df agent_cols_to_merge;
  Ok (rename agent_renames sel).

(** The three [fillna] assignments. *)
Definition fill_sentinels (merged_df : frame) : result frame :=
  do m1 <- fillna_column "agent_companyName" (VText "No Agent Assigned") merged_df;
  do m2 <- fillna_column "agent_email" (VText "N/A") m1;
  fillna_column "agent_phoneNumber" (VText "N/A") m2.

Definition merge_and_enrich (property_df agent_df : frame) : result frame :=
  do agent_df_selected <- select_agent_columns agent_df;
  do merged_df <- merge_left property_df agent_df_selected "agentId";
  fill_sentinels merged_df.

End Merge.

(** ** Filter Engine (app.py lines 119-137) *)

(** [['All'] + list(df[c].unique()) if c in df.columns else ['All']] *)
Definition filter_options (c : string) (df : frame) : list value :=
  match get_loc c (columns df) with
  | Some i => VText "All" :: unique i df
  | None => [VText "All"]
  end.

(** [selected != 'All'] *)
Definition not_all (selected : value) : bool := negb (value_eqb selected (VText "All")).

(** [if selected != 'All': df = df[df[c] == selected]] *)
Definition filter_step (c : string) (selected : value) (df : frame) : result frame :=
  if not_all selected then select_eq c selected df else Ok df.

Definition apply_filters (merged_df : frame)
    (selected_property_type selected_city selected_agent_company : value) : result frame :=
  let filtered_df := merged_df in
  do filtered_df <- filter_step "propertyType" selected_property_type filtered_df;
  do filtered_df <- filter_step "city" selected_city filtered_df;
  filter_step "agent_companyName" selected_agent_company filtered_df.

(** ** Streamlit output and the outside world *)

Inductive ui_event : Type :=
  | PageConfig (page_title : string)
  | Title (s : string)
  | SidebarExpander (label : string) (lines : list string)
  | SidebarHeader (s : string)
  | Selectbox (label : string) (options : list value)
  | Error (s : string)
  | Info (s : string)
  | Warning (s : string)
  | Success (s : string)
  | Header (s : string)
  | Subheader (s : string)
  | Dataframe (df : frame)
  | Chart (title : string) (data : frame).

(** Arguments of [psycopg2.connect]. *)
Record conninfo : Type := ConnInfo {
  host : option string;
  port : string;
  database : option string;
  user : option string;
  password : option string;
  sslmode : string;
  connect_timeout : Z
}.

(** An entry of the [st.cache_data] store: the returned frame, the
    elements the call wrote (replayed on a hit), and the time of storing. *)
Record cache_entry : Type := CacheEntry {
  cached_frame : frame;
  cached_elements : list ui_event;
  stored_at : Z
}.

Record world : Type := World {
  attempts : list conninfo;        (* every [psycopg2.connect] call so far *)
  live : list nat;                 (* connections open now, by attempt number *)
  issued : list (string * Z);      (* every query sent: table name and limit *)
  cache : gmap (string * Z) cache_entry
}.

(** How a statement ends: normally, by an exception, or by [st.stop()]
    (a [BaseException] that [except Exception] does not catch). *)
Inductive outcome (A : Type) : Type :=
  | Done (a : A)
  | Raised (e : exn)
  | Stopped.
Arguments Done {A} a.
Arguments Raised {A} e.
Arguments Stopped {A}.

(** A computation over state [S] that writes UI elements. *)
Definition M (S A : Type) : Type := S -> outcome A * list ui_event * S.

Definition ret {S A : Type} (a : A) : M S A := fun s => (Done a, [], s).

Definition bind {S A B : Type} (m : M S A) (k : A -> M S B) : M S B :=
  fun s =>
    match m s with
    | (Done a, ev, s1) => let '(r, ev2, s2) := k a s1 in (r, ev ++ ev2, s2)
    | (Raised e, ev, s1) => (Raised e, ev, s1)
    | (Stopped, ev, s1) => (Stopped, ev, s1)
    end.

Notation "x <- c1 ;; c2" := (bind c1 (fun x => c2))
  (at level 100, c1 at next level, right associativity).
Notation "c1 ;; c2" := (bind c1 (fun _ => c2))
  (at level 100, right associativity).

Definition emit {S : Type} (e : ui_event) : M S unit := fun s => (Done tt, [e], s).
Definition st_stop {S A : Type} : M S A := fun s => (Stopped, [], s).
Definition raise {S A : Type} (e : exn) : M S A := fun s => (Raised e, [], s).

Definition lift_result {S A : Type} (x : result A) : M S A :=
  match x with
  | Ok a => ret a
  | Raise e => raise e
  end.

(** [try: body  except Exception as e: handler(e)] *)
Definition try_except {S A : Type} (body : M S A) (handler : exn -> M S A) : M S A :=
  fun s =>
    match body s with
    | (Raised e, ev, s1) => let '(r, ev2, s2) := handler e s1 in (r, ev ++ ev2, s2)
    | other => other
    end.

(** [try: body  finally: cleanup]: the cleanup runs however the body
    ended, and the body's ending stands unless the cleanup itself fails. *)
Definition try_finally {S A : Type} (body : M S A) (cleanup : M S unit) : M S A :=
  fun s =>
    let '(r, ev, s1) := body s in
    match cleanup s1 with
    | (Done _, ev2, s2) => (r, ev ++ ev2, s2)
    | (Raised e, ev2, s2) => (Raised e, ev ++ ev2, s2)
    | (Stopped, ev2, s2) => (Stopped, ev ++ ev2, s2)
    end.

(** A function call with one local variable, initialised to [init]. *)
Definition call {L S A : Type} (init : L) (body : M (L * S) A) : M S A :=
  fun s => let '(r, ev, (_, s1)) := body (init, s) in (r, ev, s1).

Definition get_local {L S : Type} : M (L * S) L := fun s => (Done (fst s), [], s).
Definition set_local {L S : Type} (v : L) : M (L * S) unit := fun s => (Done tt, [], (v, snd s)).
Definition outer {L S A : Type} (m : M S A) : M (L * S) A :=
  fun s => let '(r, ev, s1) := m (snd s) in (r, ev, (fst s, s1)).

(** [needle in hay] on strings. *)
Fixpoint contains (needle hay : string) : bool :=
  String.prefix needle hay ||
  match hay with
  | EmptyString => false
  | String _ rest => contains needle rest
  end.

(** Truth value of an [os.getenv] result: [None] and the empty string are false. *)
Definition truthy (o : option string) : bool :=
  match o with
  | Some s => negb (String.eqb s "")
  | None => false
  end.

(** [str(x)] of an [os.getenv] result, as an f-string formats it. *)
Definition py_str (o : option string) : string := default "None" o.

(** Lines 23-28: the connection settings read from the environment. *)
Definition connection_settings (env : gmap string string) : conninfo :=
  {| host := env !! "DB_HOST";
     port := default "5432" (env !! "DB_PORT");
     database := env !! "DB_NAME";
     user := env !! "DB_USER";
     password := env !! "DB_PASSWORD";
     sslmode := default "require" (env !! "DB_SSL_MODE");
     connect_timeout := 10 |}.

(** [@st.cache_data(ttl=300)] *)
Definition ttl : Z := 300.

Definition fresh (now : Z) (e : cache_entry) : bool := (now <? stored_at e + ttl)%Z.

Section App.

Variable keys_mergeable : list value -> list value -> bool.
Variable keys_as_float : list value -> list value -> bool.

(** The database server: [connect_answer n] is [Some msg] when the
    [n]-th connection attempt is refused with [msg]; [query_answer n t l]
    is what the query for [l] rows of table [t] on connection [n] gives,
    an error text or the rows. *)
Variable connect_answer : nat -> option string.
Variable query_answer : nat -> string -> Z -> string + frame.

(** The user: the position picked in each select box, by label. *)
Variable user_choice : string -> nat.

(** The four tabs of charts and tables (lines 143-268), given the
    filtered, agent, property and merged frames: the elements drawn and
    the exception a chart raised, if any. *)
Variable render_tabs : frame -> frame -> frame -> frame -> list ui_event * option exn.

(** *** Table Fetcher (lines 51-73) *)

Definition psycopg2_connect (info : conninfo) : M world nat :=
  fun w =>
    let n := length (attempts w) in
    let tried := attempts w ++ [info] in
    match connect_answer n with
    | Some msg => (Raised (OtherError msg), [], World tried (live w) (issued w) (cache w))
    | None => (Done n, [], World tried (n :: live w) (issued w) (cache w))
    end.

(** [pd.read_sql(f'SELECT * FROM "{table_name}" LIMIT {limit}', conn)] *)
Definition read_sql (table_name : string) (limit : Z) (conn : nat) : M world frame :=
  fun w =>
    let w1 := World (attempts w) (live w) (issued w ++ [(table_name, limit)]) (cache w) in
    match query_answer conn table_name limit with
    | inl msg => (Raised (OtherError msg), [], w1)
    | inr df => (Done df, [], w1)
    end.

Definition conn_close (conn : nat) : M world unit :=
  fun w =>
    (Done tt, [],
     World (attempts w) (List.filter (fun c => negb (Nat.eqb c conn)) (live w))
           (issued w) (cache w)).

(** The body of [fetch_data]; the local variable is [conn]. *)
Definition fetch_data (settings : conninfo) (table_name : string) (limit : Z)
  : M world frame :=
  call None
    (try_finally
       (try_except
          (conn <- outer (psycopg2_connect settings);;
           set_local (Some conn);;
           df <- outer (read_sql table_name limit conn);;
           ret df)
          (fun e =>
             emit (Error ("Error fetching " +:+ table_name +:+ ": " +:+ exn_str e));;
             ret empty_frame))
       (conn <- get_local;;
        match conn with
        | Some c => outer (conn_close c)
        | None => ret tt
        end)).

(** A miss of [st.cache_data]: the body runs and, when it returns, its
    result and the elements it wrote are stored under the call's
    arguments with the time of the call. *)
Definition run_and_store (now : Z) (key : string * Z) (body : M world frame)
  : M world frame :=
  fun w =>
    match body w with
    | (Done df, ev, w1) =>
        (Done df, ev,
         World (attempts w1) (live w1) (issued w1)
               (<[key := CacheEntry df ev now]> (cache w1)))
    | other => other
    end.

(** [st.cache_data]: a stored entry younger than [ttl] is returned and
    its elements replayed; otherwise the body runs. *)
Definition cache_data (now : Z) (key : string * Z) (body : M world frame) : M world frame :=
  fun w =>
    match cache w !! key with
    | Some e => if fresh now e then (Done (cached_frame e), cached_elements e, w)
                else run_and_store now key body w
    | None => run_and_store now key body w
    end.

(** The decorated [fetch_data], called at time [now]. *)
Definition fetch_data_cached (settings : conninfo) (now : Z)
    (table_name : string) (limit : Z) : M world frame :=
  cache_data now (table_name, limit) (fetch_data settings table_name limit).

(** *** The page (lines 75-282) *)

(** The value [st.selectbox(label, options)] returns: the option at the
    picked position, the first option when the position is out of range. *)
Definition selectbox_value (label : string) (options : list value) : value :=
  default (default VNull (head options)) (options !! user_choice label).

Definition st_selectbox (label : string) (options : list value) : M world value :=
  emit (Selectbox label options);;
  ret (selectbox_value label options).

(** [df.head()] *)
Definition head_frame (df : frame) : frame := Frame (columns df) (take 5 (rows df)).

Definition st_tabs (filtered_df agent_df property_df merged_df : frame) : M world unit :=
  fun w =>
    match render_tabs filtered_df agent_df property_df merged_df with
    | (ev, Some e) => (Raised e, ev, w)
    | (ev, None) => (Done tt, ev, w)
    end.

(** Lines 80-277, given the two fetched frames. *)
Definition pipeline (agent_df property_df : frame) : M world unit :=
  (if frame_empty agent_df && frame_empty property_df then
     emit (Warning "⚠️ No data returned from either Agent or Property tables.");;
     st_stop
   else if frame_empty agent_df then
     emit (Warning "⚠️ No data returned from Agent table.")
   else if frame_empty property_df then
     emit (Warning "⚠️ No data returned from Property table.")
   else ret tt);;
  emit (Success "✅ Connected to database and fetched data.");;
  if negb (frame_empty agent_df) && negb (frame_empty property_df) then
    merged_df <- lift_result (merge_and_enrich keys_mergeable keys_as_float property_df agent_df);;
    emit (Subheader "Combined Property and Agent Data");;
    emit (Dataframe (head_frame merged_df));;
    emit (SidebarHeader "Filters");;
    selected_property_type <-
      st_selectbox "Select Property Type" (filter_options "propertyType" merged_df);;
    selected_city <-
      st_selectbox "Select City" (filter_options "city" merged_df);;
    selected_agent_company <-
      st_selectbox "Select Agent Company" (filter_options "agent_companyName" merged_df);;
    filtered_df <-
      lift_result (apply_filters merged_df selected_property_type selected_city
                                 selected_agent_company);;
    emit (Subheader ("Filtered Data (" +:+ pretty (frame_len filtered_df) +:+ " rows)"));;
    emit (Dataframe filtered_df);;
    st_tabs filtered_df agent_df property_df merged_df
  else if negb (frame_empty agent_df) then
    emit (Subheader "Agent Data");;
    emit (Dataframe agent_df);;
    emit (Info "Property data is empty, cannot perform merge or property-related visualizations.")
  else if negb (frame_empty property_df) then
    emit (Subheader "Property Data");;
    emit (Dataframe property_df);;
    emit (Info "Agent data is empty, cannot perform merge or agent-related visualizations.")
  else ret tt.

(** Lines 279-282: the handler of the page's [try]. *)
Definition on_unexpected (e : exn) : M world unit :=
  emit (Error ("❌ An unexpected error occurred: " +:+ exn_str e));;
  if contains "SSL" (exn_str e) then
    emit (Info "💡 Try setting DB_SSL_MODE=disable in your .env file if the database doesn't support SSL")
  else ret tt.

(** Lines 75-282. [fetch_data] is called with its default [limit=1000]. *)
Definition main (settings : conninfo) (now : Z) (db_table_agent db_table_property : string)
  : M world unit :=
  try_except
    (agent_df <- fetch_data_cached settings now db_table_agent 1000;;
     property_df <- fetch_data_cached settings now db_table_property 1000;;
     pipeline agent_df property_df)
    on_unexpected.

(** The whole script, run at time [now] with environment [env] (as it
    is after [load_dotenv]). A table name reaches [fetch_data] only
    through f-strings, hence [py_str]. *)
Definition app (env : gmap string string) (now : Z) : M world unit :=
  emit (PageConfig "Property Agent Dashboard");;
  emit (Title "🏡 Property & Agent Data Dashboard");;
  let settings := connection_settings env in
  emit (SidebarExpander "Connection Info"
          ["Host: " +:+ py_str (host settings);
           "Port: " +:+ port settings;
           "Database: " +:+ py_str (database settings);
           "User: " +:+ py_str (user settings);
           "SSL Mode: " +:+ sslmode settings]);;
  (if negb (forallb truthy [host settings; database settings; user settings; password settings])
   then
     emit (Error "❌ Missing database credentials! Please check your .env file.");;
     emit (Info "Required variables: DB_HOST, DB_NAME, DB_USER, DB_PASSWORD");;
     st_stop
   else ret tt);;
  let db_table_agent := env !! "DB_TABLE_AGENT" in
  let db_table_property := env !! "DB_TABLE_PROPERTY" in
  (if negb (forallb truthy [db_table_agent; db_table_property]) then
     emit (Error "❌ Missing table names! Please set DB_TABLE_AGENT and DB_TABLE_PROPERTY in your .env file.");;
     st_stop
   else ret tt);;
  main settings now (py_str db_table_agent) (py_str db_table_property).

End App.

(** ** The tabs (app.py lines 143-268) *)

(** What a chart block asks of pandas and plotly: the aggregate it
    computes and the columns the figure is told to use. *)
Inductive figure : Type :=
  | CountBar (col : string)
  | MeanBar (group val : string)
  | SumPie (group val : string)
  | Histogram (col : string)
  | Scatter (x y color : string) (hover : list string)
  | ScatterMap (lat lon hover_name : string) (hover : list string) (color : string).

(** The columns a figure names. *)
Definition figure_columns (fig : figure) : list string :=
  match fig with
  | CountBar col => [col]
  | MeanBar group val => [group; val]
  | SumPie group val => [group; val]
  | Histogram col => [col]
  | Scatter x y color hover => x :: y :: color :: hover
  | ScatterMap lat lon hover_name hover color => lat :: lon :: hover_name :: color :: hover
  end.

(** [df[[x, y]].isnull().all().all()]: every cell of both columns is null. *)
Definition is_null (v : value) : bool := match v with VNull => true | _ => false end.

Definition all_null (c : string) (df : frame) : bool :=
  match get_loc c (columns df) with
  | Some i => forallb (fun r => is_null (cell i r)) (rows df)
  | None => true
  end.

Section Tabs.

(** pandas and plotly at work on one chart block: [None] when the figure
    is built and drawn, the exception otherwise. *)
Variable plot : figure -> frame -> option exn.

(** The aggregate, the [px] call and [st.plotly_chart] of one block; the
    element written carries the figure's title and the frame the block
    works on. *)
Definition draw (fig : figure) (title : string) (df : frame) : M unit unit :=
  match plot fig df with
  | Some e => raise e
  | None => emit (Chart title df)
  end.

(** Lines 145-185. *)
Definition tab_property_overview (filtered_df : frame) : M unit unit :=
  emit (Header "Property Overview");;
  if negb (frame_empty filtered_df) then
    emit (Subheader "Property Count by Type");;
    (if has_column filtered_df "propertyType" then
       draw (CountBar "propertyType") "Number of Properties by Type" filtered_df
     else emit (Info "No 'propertyType' column found for this visualization."));;
    emit (Subheader "Average Price by Property Type");;
    (if has_column filtered_df "propertyType" && has_column filtered_df "price" then
       draw (MeanBar "propertyType" "price") "Average Property Price by Type" filtered_df
     else emit (Info "Missing 'propertyType' or 'price' column for this visualization."));;
    emit (Subheader "Property Price Distribution");;
    (if has_column filtered_df "price" then
       draw (Histogram "price") "Distribution of Property Prices" filtered_df
     else emit (Info "No 'price' column found for this visualization."));;
    emit (Subheader "Property Area vs. Price");;
    (if has_column filtered_df "area" && has_column filtered_df "price" then
       draw (Scatter "area" "price" "propertyType" ["title"; "city"])
            "Property Area vs. Price" filtered_df
     else emit (Info "Missing 'area' or 'price' column for this visualization."))
  else emit (Info "No data to display for Property Overview after filters.").

(** Lines 187-221. *)
Definition tab_agent_performance (filtered_df : frame) : M unit unit :=
  emit (Header "Agent Performance");;
  if negb (frame_empty filtered_df) then
    emit (Subheader "Number of Properties per Agent Company");;
    (if has_column filtered_df "agent_companyName" then
       draw (CountBar "agent_companyName") "Properties Listed by Agent Company" filtered_df
     else emit (Info "No 'agent_companyName' column found for this visualization."));;
    emit (Subheader "Total Value of Properties per Agent Company");;
    (if has_column filtered_df "agent_companyName" && has_column filtered_df "price" then
       draw (SumPie "agent_companyName" "price")
            "Total Value of Properties by Agent Company" filtered_df
     else emit (Info "Missing 'agent_companyName' or 'price' column for this visualization."));;
    emit (Subheader "Average Property Price per Agent Company");;
    (if has_column filtered_df "agent_companyName" && has_column filtered_df "price" then
       draw (MeanBar "agent_companyName" "price")
            "Average Property Price by Agent Company" filtered_df
     else emit (Info "Missing 'agent_companyName' or 'price' column for this visualization."))
  else emit (Info "No data to display for Agent Performance after filters.").

(** Lines 223-257. *)
Definition tab_location_analysis (filtered_df : frame) : M unit unit :=
  emit (Header "Location Analysis");;
  if negb (frame_empty filtered_df) then
    emit (Subheader "Properties by City");;
    (if has_column filtered_df "city" then
       draw (CountBar "city") "Number of Properties by City" filtered_df
     else emit (Info "No 'city' column found for this visualization."));;
    emit (Subheader "Average Price by City");;
    (if has_column filtered_df "city" && has_column filtered_df "price" then
       draw (MeanBar "city" "price") "Average Property Price by City" filtered_df
     else emit (Info "Missing 'city' or 'price' column for this visualization."));;
    emit (Subheader "Property Locations on Map");;
    (if has_column filtered_df "x" && has_column filtered_df "y"
        && negb (all_null "x" filtered_df && all_null "y" filtered_df) then
       draw (ScatterMap "y" "x" "title" ["address"; "city"; "price"; "propertyType"]
                        "propertyType")
            "Property Locations" filtered_df
     else emit (Info "Missing 'x' or 'y' coordinates for map visualization or all coordinates are null."))
  else emit (Info "No data to display for Location Analysis after filters.").

(** Lines 259-268. *)
Definition tab_raw_data (agent_df property_df merged_df : frame) : M unit unit :=
  emit (Header "Raw Data Tables");;
  emit (Subheader "Agent Data");;
  emit (Dataframe agent_df);;
  emit (Subheader "Property Data");;
  emit (Dataframe property_df);;
  emit (Subheader "Merged Data");;
  emit (Dataframe merged_df).

(** Lines 143-268: the four tabs in order; the first exception ends them. *)
Definition tabs (filtered_df agent_df property_df merged_df : frame)
  : list ui_event * option exn :=
  match (tab_property_overview filtered_df;;
         tab_agent_performance filtered_df;;
         tab_location_analysis filtered_df;;
         tab_raw_data agent_df property_df merged_df) tt with
  | (Raised e, ev, _) => (ev, Some e)
  | (_, ev, _) => (ev, None)
  end.

End Tabs.

(** * Vocabulary of the properties *)

(** ** Join-and-Enrich *)

Definition agent_attr_columns : list string :=
  ["agent_companyName"; "agent_email"; "agent_phoneNumber"].

Definition sentinels : list value := [VText "No Agent Assigned"; VText "N/A"; VText "N/A"].

(** The agent rows whose identifier matches the foreign key of the
    property row [l], as [pd.merge] compares the two key columns. *)
Definition matching_agents (keys_as_float : list value -> list value -> bool)
    (property_df agent_df : frame) (l : row) : list row :=
  match get_loc "agentId" (columns property_df), get_loc "id" (columns agent_df) with
  | Some i, Some j =>
      let as_float := keys_as_float (map (cell i) (rows property_df))
                                    (map (cell j) (rows agent_df)) in
      List.filter
        (fun r => key_match (cast_key as_float (cell i l)) (cast_key as_float (cell j r)))
        (rows agent_df)
  | _, _ => []
  end.

(** The three agent attributes of an agent row, nulls replaced. *)
Definition agent_attrs (agent_df : frame) (r : row) : list value :=
  map (fun '(c, v) => fillna v (match get_loc c (columns agent_df) with
                                | Some j => cell j r
                                | None => VNull
                                end))
      [("companyName", VText "No Agent Assigned"); ("email", VText "N/A");
       ("phoneNumber", VText "N/A")].

(** The enriched rows that come from the property row [l]. *)
Definition enriched_rows (keys_as_float : list value -> list value -> bool)
    (property_df agent_df : frame) (l : row) : list row :=
  match matching_agents keys_as_float property_df agent_df l with
  | [] => [l ++ sentinels]
  | ms => map (fun r => l ++ agent_attrs agent_df r) ms
  end.

Definition key_column (c : string) (df : frame) : list value :=
  match get_loc c (columns df) with
  | Some i => map (cell i) (rows df)
  | None => []
  end.

(** The labels the merge needs are there, no property column carries an
    agent attribute label, and the key columns pass the dtype check. *)
Definition joinable (keys_mergeable : list value -> list value -> bool)
    (property_df agent_df : frame) : Prop :=
  In "agentId" (columns property_df) /\
  (forall c, In c agent_cols_to_merge -> In c (columns agent_df)) /\
  (forall t, In t agent_attr_columns -> ~ In t (columns property_df)) /\
  keys_mergeable (key_column "agentId" property_df) (key_column "id" agent_df) = true.

(** The enriched frame. *)
Definition enriched (keys_as_float : list value -> list value -> bool)
    (property_df agent_df : frame) : frame :=
  Frame (columns property_df ++ agent_attr_columns)
        (flat_map (enriched_rows keys_as_float property_df agent_df) (rows property_df)).


(** [df[c]] at the row [r] of [df]. *)
Definition value_at (df : frame) (c : string) (r : row) : value :=
  match get_loc c (columns df) with
  | Some i => cell i r
  | None => VNull
  end.

(** ** Filter Engine *)

(** The constraint a selection puts on a row: none for the wildcard,
    otherwise [==] on the column. *)
Definition constraint_holds (df : frame) (c : string) (selected : value) (r : row) : bool :=
  negb (not_all selected) || value_eqb (value_at df c r) selected.

(** All active constraints, combined with AND. *)
Definition row_selected (df : frame) (s_type s_city s_company : value) (r : row) : bool :=
  constraint_holds df "propertyType" s_type r &&
  constraint_holds df "city" s_city r &&
  constraint_holds df "agent_companyName" s_company r.

(** The selection is one of the options the select box for [c] offers. *)
Definition offered (c : string) (df : frame) (selected : value) : Prop :=
  In selected (filter_options c df).




(** ** Table Fetcher and cache *)

(** The notice [fetch_data] writes when the database fails with [msg]. *)
Definition fetch_error_notice (table_name msg : string) : ui_event :=
  Error ("Error fetching " +:+ table_name +:+ ": " +:+ msg).

(** The connections opened so far are the only ones that can be live. *)
Definition live_bounded (w : world) : Prop :=
  Forall (fun c => c < length (attempts w)) (live w).

(** The queries sent for one cache key. *)
Definition queries_for (key : string * Z) (w : world) : nat :=
  length (List.filter (fun q => bool_decide (q = key)) (issued w)).

(** A sequence of cached fetches, each with its time and its key; the
    world they leave. *)
Fixpoint run_calls (connect_answer : nat -> option string)
    (query_answer : nat -> string -> Z -> string + frame)
    (settings : conninfo) (calls : list (Z * (string * Z))) (w : world) : world :=
  match calls with
  | [] => w
  | (now, (table_name, limit)) :: rest =>
      run_calls connect_answer query_answer settings rest
        (snd (fetch_data_cached connect_answer query_answer settings now table_name limit w))
  end.

(** ** The page *)

Definition connection_vars : list string := ["DB_HOST"; "DB_NAME"; "DB_USER"; "DB_PASSWORD"].
Definition table_vars : list string := ["DB_TABLE_AGENT"; "DB_TABLE_PROPERTY"].

(** Some error or info notice of the trace contains the name [v]. *)
Definition named (v : string) (ev : list ui_event) : Prop :=
  exists s, (In (Error s) ev \/ In (Info s) ev) /\ contains v s = true.

(** [all([db_host, db_name, db_user, db_password])] *)
Definition credentials_present (env : gmap string string) : bool :=
  forallb (fun c => truthy (env !! c)) connection_vars.

(** [all([db_table_agent, db_table_property])] *)
Definition tables_present (env : gmap string string) : bool :=
  forallb (fun c => truthy (env !! c)) table_vars.

(** What the page writes before it checks its configuration. *)
Definition startup_elements (env : gmap string string) : list ui_event :=
  [PageConfig "Property Agent Dashboard";
   Title "🏡 Property & Agent Data Dashboard";
   SidebarExpander "Connection Info"
     ["Host: " +:+ py_str (env !! "DB_HOST");
      "Port: " +:+ default "5432" (env !! "DB_PORT");
      "Database: " +:+ py_str (env !! "DB_NAME");
      "User: " +:+ py_str (env !! "DB_USER");
      "SSL Mode: " +:+ default "require" (env !! "DB_SSL_MODE")]].

(** ** Concrete tables, environment and server *)

(** A dtype check that accepts key columns unless one holds text and the
    other a number. *)
Definition is_text (v : value) : bool := match v with VText _ => true | _ => false end.
Definition is_num (v : value) : bool := match v with VNum _ => true | _ => false end.
Definition same_kind_keys (lk rk : list value) : bool :=
  negb ((existsb is_text lk && existsb is_num rk) || (existsb is_num lk && existsb is_text rk)).

(** Key columns are compared as float64 when one of them holds a null
    beside its numbers: such a column is a float64 column. *)
Definition null_makes_float (lk rk : list value) : bool :=
  existsb (fun v => match v with VNull => true | _ => false end) lk ||
  existsb (fun v => match v with VNull => true | _ => false end) rk.

(** The two scenarios of the specification, in one property table. *)
Definition ex_properties : frame :=
  Frame ["id"; "agentId"; "propertyType"; "city"; "price"]
        [[VNum 1; VNum 10; VText "House"; VText "Metropolis"; VNum 200000];
         [VNum 2; VNum 99; VText "Condo"; VText "Gotham"; VNum 150000]].

Definition ex_agents : frame :=
  Frame ["id"; "companyName"; "email"; "phoneNumber"; "createdAt"]
        [[VNum 10; VText "Acme Realty"; VText "a@x.com"; VText "555"; VNum 7]].

Definition dup_properties : frame :=
  Frame ["id"; "agentId"; "city"] [[VNum 1; VNum 10; VText "Gotham"]].

Definition dup_agents : frame :=
  Frame ["id"; "companyName"; "email"; "phoneNumber"]
        [[VNum 10; VText "Acme Realty"; VText "a@x.com"; VText "555"];
         [VNum 10; VText "Acme Homes"; VText "b@x.com"; VText "556"]].

(** A property table whose [agentId] column holds a null, and so is read
    as a float64 column: the identifier 2^53 + 1 of the database reads in
    it as 2^53. *)
Definition wide_properties : frame :=
  Frame ["id"; "agentId"; "city"]
        [[VNum 1; VNum 9007199254740992; VText "Gotham"];
         [VNum 2; VNull; VText "Metropolis"]].


(** The same with the identifier 2^53 as well. *)
Definition wide_agents_two : frame :=
  Frame ["id"; "companyName"; "email"; "phoneNumber"]
        [[VNum 9007199254740992; VText "Acme Homes"; VText "b@x.com"; VText "556"];
         [VNum 9007199254740993; VText "Acme Realty"; VText "a@x.com"; VText "555"]].

(** What the merge step makes of the last two tables when the key
    columns are compared as float64, and its record without an agent. *)
Definition wide_enriched : frame :=
  Frame ["id"; "agentId"; "city"; "agent_companyName"; "agent_email"; "agent_phoneNumber"]
        [[VNum 1; VNum 9007199254740992; VText "Gotham";
          VText "Acme Homes"; VText "b@x.com"; VText "556"];
         [VNum 1; VNum 9007199254740992; VText "Gotham";
          VText "Acme Realty"; VText "a@x.com"; VText "555"];
         [VNum 2; VNull; VText "Metropolis";
          VText "No Agent Assigned"; VText "N/A"; VText "N/A"]].


(** A property table that carries [agent_email] and [agent_email_x]. *)
Definition ex_collide_twice : frame :=
  Frame ["id"; "agentId"; "agent_email"; "agent_email_x"]
        [[VNum 1; VNum 10; VText "old@x.com"; VText "older@x.com"]].

Definition ex_enriched : frame :=
  Frame ["id"; "agentId"; "propertyType"; "city"; "price";
         "agent_companyName"; "agent_email"; "agent_phoneNumber"]
        [[VNum 1; VNum 10; VText "House"; VText "Metropolis"; VNum 200000;
          VText "Acme Realty"; VText "a@x.com"; VText "555"];
         [VNum 2; VNum 99; VText "Condo"; VText "Gotham"; VNum 150000;
          VText "No Agent Assigned"; VText "N/A"; VText "N/A"]].

(** A table whose [propertyType] column holds the value ["All"]. *)
Definition ex_all_typed : frame :=
  Frame ["id"; "propertyType"] [[VNum 1; VText "All"]; [VNum 2; VText "House"]].

(** An agent table without the [email] and [phoneNumber] columns. *)
Definition ex_agents_short : frame :=
  Frame ["id"; "companyName"] [[VNum 10; VText "Acme Realty"]].

Definition ex_env : gmap string string :=
  list_to_map [("DB_HOST", "db.example.org"); ("DB_NAME", "estate"); ("DB_USER", "reader");
               ("DB_PASSWORD", "secret"); ("DB_TABLE_AGENT", "Agent")].

Definition ex_world : world := World [] [] [] ∅.

(** A server that accepts every connection and knows three tables. *)
Definition ex_connect (n : nat) : option string := None.
Definition ex_query (n : nat) (table_name : string) (limit : Z) : string + frame :=
  if String.eqb table_name "Agent" then inr ex_agents
  else if String.eqb table_name "Property" then inr ex_properties
  else if String.eqb table_name "AgentShort" then inr ex_agents_short
  else inr (Frame ["id"] []).

Definition ex_choice (label : string) : nat := 0.
Definition ex_tabs (filtered_df agent_df property_df merged_df : frame)
  : list ui_event * option exn := ([Header "Property Overview"], None).

Definition ex_fetch (now : Z) (table_name : string) (w : world)
  : outcome frame * list ui_event * world :=
  fetch_data_cached ex_connect ex_query (connection_settings ex_env) now table_name 1000 w.

(** ** Vocabulary of the further properties *)

(** The labels [agent_df[agent_cols_to_merge]] does not find. *)
Definition missing_agent_columns (agent_df : frame) : list string :=
  List.filter (fun c => negb (has_column agent_df c)) agent_cols_to_merge.

(** The property part of an enriched row. *)
Definition property_part (property_df : frame) (r : row) : row :=
  take (length (columns property_df)) r.

(** A computation that leaves its state as it found it. *)
Definition keeps_state {S A : Type} (m : M S A) : Prop :=
  forall s, snd (m s) = s.

(** The two cache keys of a run of the page. *)
Definition agent_key (env : gmap string string) : string * Z :=
  (py_str (env !! "DB_TABLE_AGENT"), 1000%Z).
Definition property_key (env : gmap string string) : string * Z :=
  (py_str (env !! "DB_TABLE_PROPERTY"), 1000%Z).

(** How a part of the tabs may end: normally, or by the exception [plot]
    gave for a figure that satisfies [ok]; and it never writes [hdr]. *)
Definition tab_outcome (plot : figure -> frame -> option exn) (f : frame)
    (ok : figure -> Prop) (hdr : ui_event) (m : M unit unit) : Prop :=
  match m tt with
  | (Done _, ev, _) => ~ In hdr ev
  | (Raised e, ev, _) => ~ In hdr ev /\ exists fig, ok fig /\ plot fig f = Some e
  | (Stopped, _, _) => False
  end.

(** What the raw data tab writes. *)
Definition raw_data_elements (agent_df property_df merged_df : frame) : list ui_event :=
  [Header "Raw Data Tables";
   Subheader "Agent Data"; Dataframe agent_df;
   Subheader "Property Data"; Dataframe property_df;
   Subheader "Merged Data"; Dataframe merged_df].

(** What the three chart tabs write for a frame without rows. *)
Definition no_data_elements : list ui_event :=
  [Header "Property Overview";
   Info "No data to display for Property Overview after filters.";
   Header "Agent Performance";
   Info "No data to display for Agent Performance after filters.";
   Header "Location Analysis";
   Info "No data to display for Location Analysis after filters."].

(** Every column the figure names is a column of the frame. *)
Definition names_present_columns (f : frame) (fig : figure) : Prop :=
  forall c, In c (figure_columns fig) -> In c (columns f).

(** How the four tabs may end: with the raw data tab written last, or
    before it by the exception [plot] gave for a figure that satisfies
    [ok]. *)
Definition tabs_outcome (plot : figure -> frame -> option exn) (f : frame)
    (ok : figure -> Prop) (raw : list ui_event) (res : list ui_event * option exn) : Prop :=
  match res with
  | (ev, None) => exists ev0, ev = ev0 ++ raw /\ ~ In (Header "Raw Data Tables") ev0
  | (ev, Some e) =>
      ~ In (Header "Raw Data Tables") ev /\ exists fig, ok fig /\ plot fig f = Some e
  end.

(** The columns the scatter plot and the map name without a check. *)
Definition display_columns : list string :=
  ["propertyType"; "title"; "city"; "address"; "price"].

(** ** Concrete inputs of the further properties *)

(** A property table that already has an [agent_email] column. *)
Definition ex_collide : frame :=
  Frame ["id"; "agentId"; "agent_email"] [[VNum 1; VNum 10; VText "old@x.com"]].

(** A merged frame with a null city. *)
Definition ex_null_city : frame :=
  Frame ["id"; "city"; "agent_companyName"]
        [[VNum 1; VNull; VText "Acme Realty"]; [VNum 2; VText "Gotham"; VText "Acme Realty"]].

(** A complete environment. *)
Definition ex_env_full : gmap string string :=
  <["DB_TABLE_PROPERTY" := "Property"]> ex_env.

(** A server that refuses every connection. *)
Definition ex_refuse (n : nat) : option string :=
  Some "SSL connection has been closed unexpectedly".

(** A world whose cache holds the agent table, stored at time 0. *)
Definition ex_world_cached : world :=
  World [] [] [] {[ ("Agent", 1000%Z) := CacheEntry ex_agents [] 0 ]}.

(** The user picks the second property type and the third city. *)
Definition ex_pick (label : string) : nat :=
  if String.eqb label "Select Property Type" then 1
  else if String.eqb label "Select City" then 2
  else 0.

(** Plotting that fails exactly for a figure naming an absent column. *)
Definition ex_plot (fig : figure) (df : frame) : option exn :=
  if forallb (has_column df) (figure_columns fig) then None
  else Some (ValueError "Value is not the name of a column in 'data_frame'").

(** A filtered frame with [area] and [price] and without [title]. *)
Definition ex_untitled : frame :=
  Frame ["propertyType"; "city"; "price"; "area"]
        [[VText "House"; VText "Metropolis"; VNum 200000; VNum 120]].

(** A filtered frame with all the display columns. *)
Definition ex_titled : frame :=
  Frame ["propertyType"; "title"; "city"; "address"; "price"; "area"]
        [[VText "House"; VText "Villa"; VText "Metropolis"; VText "1 Main St";
          VNum 200000; VNum 120]].

(** * Properties *)

(** ** Column lookup *)

Lemma get_loc_Some (c : string) (cols : list string) (i : nat) :
  get_loc c cols = Some i -> cols !! i = Some c.
Proof.
  revert i. induction cols as [|c' rest IH]; intros i; simpl; [discriminate|].
  destruct (String.eqb_spec c c') as [->|Hne].
  - intros [= <-]. reflexivity.
  - destruct (get_loc c rest) as [k|]; simpl; [|discriminate].
    intros [= <-]. simpl. apply IH. reflexivity.
Qed.

Lemma get_loc_lt (c : string) (cols : list string) (i : nat) :
  get_loc c cols = Some i -> i < length cols.
Proof. intros H. apply get_loc_Some in H. eapply lookup_lt_Some, H. Qed.

Lemma get_loc_None (c : string) (cols : list string) :
  get_loc c cols = None <-> ~ In c cols.
Proof.
  induction cols as [|c' rest IH]; simpl; [tauto|].
  destruct (String.eqb_spec c c') as [->|Hne].
  - split; [discriminate | intros H; exfalso; apply H; now left].
  - rewrite fmap_None, IH. split; [intros H [Heq|Hin]; [congruence|tauto] | tauto].
Qed.

Lemma get_loc_app_l (c : string) (l1 l2 : list string) (i : nat) :
  get_loc c l1 = Some i -> get_loc c (l1 ++ l2) = Some i.
Proof.
  revert i. induction l1 as [|c' rest IH]; intros i; simpl; [discriminate|].
  destruct (String.eqb c c'); [trivial|].
  destruct (get_loc c rest) as [k|]; simpl; [|discriminate].
  intros [= <-]. now rewrite (IH k).
Qed.

Lemma get_loc_app_r (c : string) (l1 l2 : list string) :
  ~ In c l1 -> get_loc c (l1 ++ l2) = (fun k => length l1 + k) <$> get_loc c l2.
Proof.
  induction l1 as [|c' rest IH]; simpl; intros Hnin.
  - now destruct (get_loc c l2).
  - destruct (String.eqb_spec c c') as [->|Hne]; [tauto|].
    rewrite IH by tauto. now destruct (get_loc c l2).
Qed.

Lemma has_column_true (df : frame) (c : string) :
  has_column df c = true <-> In c (columns df).
Proof.
  unfold has_column. destruct (get_loc c (columns df)) as [i|] eqn:E.
  - split; [intros _|reflexivity].
    apply get_loc_Some in E. apply list_elem_of_In. eapply list_elem_of_lookup_2, E.
  - apply get_loc_None in E. split; [discriminate|tauto].
Qed.

(** ** Join-and-Enrich *)

Section MergeFacts.

Variable keys_mergeable : list value -> list value -> bool.
Variable keys_as_float : list value -> list value -> bool.

Lemma select_agent_columns_inv (agent_df sel : frame) :
  select_agent_columns agent_df = Ok sel ->
  exists j0 j1 j2 j3,
    get_loc "id" (columns agent_df) = Some j0 /\
    get_loc "companyName" (columns agent_df) = Some j1 /\
    get_loc "email" (columns agent_df) = Some j2 /\
    get_loc "phoneNumber" (columns agent_df) = Some j3 /\
    sel = Frame ("agentId" :: agent_attr_columns)
                (map (fun r => [cell j0 r; cell j1 r; cell j2 r; cell j3 r]) (rows agent_df)).
Proof.
  unfold select_agent_columns, getitem_columns, agent_cols_to_merge, has_column.
  simpl.
  destruct (get_loc "id" (columns agent_df)) as [j0|];
    destruct (get_loc "companyName" (columns agent_df)) as [j1|];
    destruct (get_loc "email" (columns agent_df)) as [j2|];
    destruct (get_loc "phoneNumber" (columns agent_df)) as [j3|];
    simpl; try discriminate.
  intros [= <-]. exists j0, j1, j2, j3. repeat split; reflexivity.
Qed.

Lemma select_agent_columns_ok (agent_df : frame) (j0 j1 j2 j3 : nat) :
  get_loc "id" (columns agent_df) = Some j0 ->
  get_loc "companyName" (columns agent_df) = Some j1 ->
  get_loc "email" (columns agent_df) = Some j2 ->
  get_loc "phoneNumber" (columns agent_df) = Some j3 ->
  select_agent_columns agent_df =
  Ok (Frame ("agentId" :: agent_attr_columns)
            (map (fun r => [cell j0 r; cell j1 r; cell j2 r; cell j3 r]) (rows agent_df))).
Proof.
  intros H0 H1 H2 H3.
  unfold select_agent_columns, getitem_columns, agent_cols_to_merge, has_column.
  simpl. rewrite H0, H1, H2, H3. reflexivity.
Qed.

Lemma existsb_eqb_In (c : string) (l : list string) :
  existsb (String.eqb c) l = true <-> In c l.
Proof.
  rewrite existsb_exists. split.
  - intros (x & Hin & Heq). apply String.eqb_eq in Heq. now subst.
  - intros Hin. exists c. split; [exact Hin | apply String.eqb_refl].
Qed.

(** A property column that carries one of the agent attribute labels is
    renamed by the merge, and so is the agent's: the label is gone. *)
Lemma collision_hides_label (pcols : list string) (t : string) :
  In t agent_attr_columns -> In t pcols ->
  get_loc t (map (suffix_overlap "agentId" ("agentId" :: agent_attr_columns) "_x") pcols
               ++ map (suffix_overlap "agentId" pcols "_y") agent_attr_columns) = None.
Proof.
  intros Ht Hin. apply get_loc_None. intros H.
  apply in_app_or in H. destruct H as [H|H]; apply in_map_iff in H;
    destruct H as (c & Hc & Hcin); unfold suffix_overlap in Hc.
  - destruct (String.eqb_spec c "agentId") as [Heq|Hne].
    + subst c t. simpl in Ht. intuition discriminate.
    + destruct (existsb (String.eqb c) ("agentId" :: agent_attr_columns)) eqn:E.
      * apply existsb_eqb_In in E. simpl in E, Ht.
        destruct E as [<-|[<-|[<-|[<-|[]]]]]; subst t; simpl in Ht; intuition discriminate.
      * subst c. assert (E' : existsb (String.eqb t) ("agentId" :: agent_attr_columns) = true)
          by (apply existsb_eqb_In; now right).
        congruence.
  - destruct (String.eqb_spec c "agentId") as [Heq|Hne].
    + subst c t. simpl in Ht. intuition discriminate.
    + destruct (existsb (String.eqb c) pcols) eqn:E.
      * simpl in Hcin, Ht.
        destruct Hcin as [<-|[<-|[<-|[]]]]; subst t; simpl in Ht; intuition discriminate.
      * subst c. apply existsb_eqb_In in Hin. congruence.
Qed.

Lemma no_collision_keeps_labels (pcols : list string) :
  (forall t, In t agent_attr_columns -> ~ In t pcols) ->
  map (suffix_overlap "agentId" ("agentId" :: agent_attr_columns) "_x") pcols = pcols /\
  map (suffix_overlap "agentId" pcols "_y") agent_attr_columns = agent_attr_columns.
Proof.
  intros Hno. split.
  - rewrite <- (map_id pcols) at 2. apply map_ext_in. intros c Hc.
    unfold suffix_overlap. destruct (String.eqb_spec c "agentId") as [->|Hne]; [reflexivity|].
    destruct (existsb (String.eqb c) ("agentId" :: agent_attr_columns)) eqn:E; [|reflexivity].
    apply existsb_eqb_In in E. destruct E as [<-|E]; [congruence|].
    exfalso. exact (Hno c E Hc).
  - rewrite <- (map_id agent_attr_columns) at 2. apply map_ext_in. intros c Hc.
    unfold suffix_overlap. destruct (String.eqb_spec c "agentId") as [->|Hne]; [reflexivity|].
    destruct (existsb (String.eqb c) pcols) eqn:E; [|reflexivity].
    apply existsb_eqb_In in E. exfalso. exact (Hno c Hc E).
Qed.

Lemma fill_sentinels_inv (df m : frame) :
  fill_sentinels df = Ok m ->
  exists k1 k2 k3,
    get_loc "agent_companyName" (columns df) = Some k1 /\
    get_loc "agent_email" (columns df) = Some k2 /\
    get_loc "agent_phoneNumber" (columns df) = Some k3 /\
    m = Frame (columns df)
              (map (fun r => alter (fillna (VText "N/A")) k3
                               (alter (fillna (VText "N/A")) k2
                                  (alter (fillna (VText "No Agent Assigned")) k1 r)))
                   (rows df)).
Proof.
  unfold fill_sentinels, fillna_column.
  destruct (get_loc "agent_companyName" (columns df)) as [k1|]; simpl; [|discriminate].
  destruct (get_loc "agent_email" (columns df)) as [k2|]; simpl; [|discriminate].
  destruct (get_loc "agent_phoneNumber" (columns df)) as [k3|]; simpl; [|discriminate].
  intros [= <-]. exists k1, k2, k3. repeat split; try reflexivity.
  f_equal. rewrite !map_map. reflexivity.
Qed.

Lemma filter_map_comm {A B : Type} (f : B -> bool) (g : A -> B) (l : list A) :
  List.filter f (map g l) = map g (List.filter (fun x => f (g x)) l).
Proof.
  induction l as [|x l IH]; simpl; [reflexivity|].
  destruct (f (g x)); simpl; now rewrite IH.
Qed.

(** The three [fillna] assignments on a row that extends a full
    property row by the three agent attributes. *)
Lemma fill_row (l : row) (x y z : value) (n : nat) :
  length l = n ->
  alter (fillna (VText "N/A")) (n + 2)
    (alter (fillna (VText "N/A")) (n + 1)
       (alter (fillna (VText "No Agent Assigned")) (n + 0) (l ++ [x; y; z])))
  = l ++ [fillna (VText "No Agent Assigned") x; fillna (VText "N/A") y;
          fillna (VText "N/A") z].
Proof.
  intros <-. rewrite alter_app_r. simpl.
  rewrite alter_app_r. simpl. rewrite alter_app_r. reflexivity.
Qed.

(** Without a renaming no label is made a duplicate. *)
Lemma suffix_duplicates_same (seen l : list string) :
  suffix_duplicates seen seen l l = [].
Proof.
  revert seen. induction l as [|c l IH]; intros seen; simpl; [reflexivity|].
  rewrite IH. now destruct (existsb (String.eqb c) seen).
Qed.

(** One property row through the join and the three [fillna]
    assignments. *)
Lemma enrich_row_eq (property_df agent_df : frame) (i j0 j1 j2 j3 : nat) (l : row) :
  get_loc "agentId" (columns property_df) = Some i ->
  get_loc "id" (columns agent_df) = Some j0 ->
  get_loc "companyName" (columns agent_df) = Some j1 ->
  get_loc "email" (columns agent_df) = Some j2 ->
  get_loc "phoneNumber" (columns agent_df) = Some j3 ->
  length l = length (columns property_df) ->
  let n := length (columns property_df) in
  map (fun r => alter (fillna (VText "N/A")) (n + 2)
                  (alter (fillna (VText "N/A")) (n + 1)
                     (alter (fillna (VText "No Agent Assigned")) (n + 0) r)))
      (join_row (keys_as_float (map (cell i) (rows property_df))
                               (map (cell j0) (rows agent_df)))
                i 0 3
                (map (fun r => [cell j0 r; cell j1 r; cell j2 r; cell j3 r])
                     (rows agent_df))
                l)
  = enriched_rows keys_as_float property_df agent_df l.
Proof.
  intros Hi H0 H1 H2 H3 Hl n.
  unfold join_row, enriched_rows, matching_agents, agent_attrs. cbn [map].
  rewrite Hi, H0, H1, H2, H3, filter_map_comm. cbv zeta.
  set (f := keys_as_float _ _).
  change (fun x : row => key_match (cast_key f (cell i l))
                           (cast_key f (cell 0 [cell j0 x; cell j1 x; cell j2 x; cell j3 x])))
    with (fun x : row => key_match (cast_key f (cell i l)) (cast_key f (cell j0 x))).
  destruct (List.filter _ (rows agent_df)) as [|r0 ms]; cbn [map replicate].
  - now rewrite (fill_row l VNull VNull VNull n Hl).
  - change (delete 0 [cell j0 r0; cell j1 r0; cell j2 r0; cell j3 r0])
      with [cell j1 r0; cell j2 r0; cell j3 r0].
    rewrite (fill_row l _ _ _ n Hl). f_equal.
    rewrite !map_map. apply map_ext. intros r.
    change (delete 0 [cell j0 r; cell j1 r; cell j2 r; cell j3 r])
      with [cell j1 r; cell j2 r; cell j3 r].
    now rewrite (fill_row l _ _ _ n Hl).
Qed.

Lemma enrich_rows_eq (property_df agent_df : frame) (i j0 j1 j2 j3 : nat) :
  well_formed property_df ->
  get_loc "agentId" (columns property_df) = Some i ->
  get_loc "id" (columns agent_df) = Some j0 ->
  get_loc "companyName" (columns agent_df) = Some j1 ->
  get_loc "email" (columns agent_df) = Some j2 ->
  get_loc "phoneNumber" (columns agent_df) = Some j3 ->
  let n := length (columns property_df) in
  map (fun r => alter (fillna (VText "N/A")) (n + 2)
                  (alter (fillna (VText "N/A")) (n + 1)
                     (alter (fillna (VText "No Agent Assigned")) (n + 0) r)))
      (flat_map (join_row (keys_as_float (map (cell i) (rows property_df))
                                         (map (cell j0) (rows agent_df)))
                          i 0 3
                          (map (fun r => [cell j0 r; cell j1 r; cell j2 r; cell j3 r])
                               (rows agent_df)))
                (rows property_df))
  = flat_map (enriched_rows keys_as_float property_df agent_df) (rows property_df).
Proof.
  intros Hwf Hi H0 H1 H2 H3 n. unfold well_formed in Hwf. fold n in Hwf.
  pose proof (enrich_row_eq property_df agent_df i j0 j1 j2 j3) as Hrow.
  set (f := keys_as_float _ _) in *.
  revert Hwf. generalize (rows property_df). intros ls Hwf.
  induction Hwf as [|l ls Hl _ IH]; simpl; [reflexivity|].
  rewrite map_app, IH. f_equal. exact (Hrow l Hi H0 H1 H2 H3 Hl).
Qed.

(** What [merge_and_enrich] returns, when it returns. *)
Lemma merge_and_enrich_inv (property_df agent_df m : frame) :
  well_formed property_df ->
  merge_and_enrich keys_mergeable keys_as_float property_df agent_df = Ok m ->
  joinable keys_mergeable property_df agent_df /\ m = enriched keys_as_float property_df agent_df.
Proof.
  intros Hwf. unfold merge_and_enrich.
  destruct (select_agent_columns agent_df) as [sel|e] eqn:Hsel; simpl; [|discriminate].
  apply select_agent_columns_inv in Hsel.
  destruct Hsel as (j0 & j1 & j2 & j3 & H0 & H1 & H2 & H3 & ->).
  unfold merge_left. cbn [columns rows].
  destruct (get_loc "agentId" (columns property_df)) as [i|] eqn:Hi; [|discriminate].
  change (get_loc "agentId" ("agentId" :: agent_attr_columns)) with (Some 0).
  cbn iota. cbv zeta. rewrite map_map.
  change (fun x : row => cell 0 [cell j0 x; cell j1 x; cell j2 x; cell j3 x])
    with (cell j0).
  destruct (keys_mergeable _ _) eqn:Hk; cbn [result_bind]; [|discriminate].
  change (delete 0 ("agentId" :: agent_attr_columns)) with agent_attr_columns.
  destruct (suffix_duplicates _ _ _ _ ++ suffix_duplicates _ _ _ _) as [|d ds];
    cbn [result_bind]; [|discriminate].
  intros Hfill. apply fill_sentinels_inv in Hfill. cbn [columns rows] in Hfill.
  destruct Hfill as (k1 & k2 & k3 & Hk1 & Hk2 & Hk3 & ->).
  assert (Hno : forall t, In t agent_attr_columns -> ~ In t (columns property_df)).
  { intros t Ht Hin. pose proof (collision_hides_label _ t Ht Hin) as Hnone.
    simpl in Ht. destruct Ht as [<-|[<-|[<-|[]]]]; congruence. }
  destruct (no_collision_keeps_labels _ Hno) as [Hx Hy].
  rewrite Hx, Hy in Hk1, Hk2, Hk3 |- *.
  rewrite get_loc_app_r in Hk1, Hk2, Hk3 by (apply Hno; simpl; tauto).
  simpl in Hk1, Hk2, Hk3. injection Hk1 as <-. injection Hk2 as <-. injection Hk3 as <-.
  split.
  - repeat split.
    + apply has_column_true. unfold has_column. now rewrite Hi.
    + intros c Hc. apply has_column_true. unfold has_column. simpl in Hc.
      destruct Hc as [<-|[<-|[<-|[<-|[]]]]]; [now rewrite H0|now rewrite H1|now rewrite H2|now rewrite H3].
    + exact Hno.
    + unfold key_column. now rewrite Hi, H0.
  - unfold enriched. f_equal.
    exact (enrich_rows_eq property_df agent_df i j0 j1 j2 j3 Hwf Hi H0 H1 H2 H3).
Qed.

(** [merge_and_enrich] returns whenever the labels it needs are there. *)
Lemma merge_and_enrich_total (property_df agent_df : frame) :
  well_formed property_df ->
  joinable keys_mergeable property_df agent_df ->
  merge_and_enrich keys_mergeable keys_as_float property_df agent_df
  = Ok (enriched keys_as_float property_df agent_df).
Proof.
  intros Hwf (Hkey & Hcols & Hno & Hk).
  apply has_column_true in Hkey. unfold has_column in Hkey.
  destruct (get_loc "agentId" (columns property_df)) as [i|] eqn:Hi; [|discriminate].
  assert (Hloc : forall c, In c agent_cols_to_merge ->
                           exists j, get_loc c (columns agent_df) = Some j).
  { intros c Hc. apply Hcols, has_column_true in Hc. unfold has_column in Hc.
    destruct (get_loc c (columns agent_df)) as [j|]; [eauto|discriminate]. }
  destruct (Hloc "id") as [j0 H0]; [simpl; tauto|].
  destruct (Hloc "companyName") as [j1 H1]; [simpl; tauto|].
  destruct (Hloc "email") as [j2 H2]; [simpl; tauto|].
  destruct (Hloc "phoneNumber") as [j3 H3]; [simpl; tauto|].
  unfold key_column in Hk. rewrite Hi, H0 in Hk.
  unfold merge_and_enrich.
  rewrite (select_agent_columns_ok agent_df j0 j1 j2 j3 H0 H1 H2 H3).
  cbn [result_bind]. unfold merge_left. cbn [columns rows]. rewrite Hi.
  change (get_loc "agentId" ("agentId" :: agent_attr_columns)) with (Some 0).
  cbn iota. cbv zeta. rewrite map_map.
  change (fun x : row => cell 0 [cell j0 x; cell j1 x; cell j2 x; cell j3 x])
    with (cell j0).
  rewrite Hk.
  change (delete 0 ("agentId" :: agent_attr_columns)) with agent_attr_columns.
  destruct (no_collision_keeps_labels _ Hno) as [Hx Hy]. rewrite Hx, Hy.
  rewrite !suffix_duplicates_same. change (@nil string ++ []) with (@nil string). cbv iota.
  unfold fill_sentinels, fillna_column. cbn [result_bind columns rows].
  repeat (rewrite get_loc_app_r by (apply Hno; simpl; tauto); simpl).
  unfold enriched. do 2 f_equal. rewrite !map_map.
  exact (enrich_rows_eq property_df agent_df i j0 j1 j2 j3 Hwf Hi H0 H1 H2 H3).
Qed.

Lemma enriched_rows_length (property_df agent_df : frame) (l : row) :
  length (enriched_rows keys_as_float property_df agent_df l)
  = Nat.max 1 (length (matching_agents keys_as_float property_df agent_df l)).
Proof.
  unfold enriched_rows.
  destruct (matching_agents keys_as_float property_df agent_df l) as [|r ms]; [reflexivity|].
  rewrite length_map. reflexivity.
Qed.

Lemma enriched_rows_single (property_df agent_df : frame) (l : row) :
  length (matching_agents keys_as_float property_df agent_df l) <= 1 ->
  exists attrs, enriched_rows keys_as_float property_df agent_df l = [l ++ attrs] /\ length attrs = 3.
Proof.
  unfold enriched_rows.
  destruct (matching_agents keys_as_float property_df agent_df l) as [|r [|r' ms]]; simpl; intros Hle.
  - exists sentinels. split; reflexivity.
  - exists (agent_attrs agent_df r). split; reflexivity.
  - lia.
Qed.

Lemma map_const_replicate {A B : Type} (b : B) (l : list A) :
  map (fun _ => b) l = replicate (length l) b.
Proof. induction l as [|x l IH]; simpl; [reflexivity | now rewrite IH]. Qed.

Lemma property_part_enriched_rows (property_df agent_df : frame) (l : row) :
  length l = length (columns property_df) ->
  map (property_part property_df) (enriched_rows keys_as_float property_df agent_df l)
  = replicate (Nat.max 1 (length (matching_agents keys_as_float property_df agent_df l))) l.
Proof.
  intros Hl. unfold enriched_rows, property_part.
  destruct (matching_agents keys_as_float property_df agent_df l) as [|r0 ms].
  - simpl. rewrite <- Hl, take_app_length. reflexivity.
  - rewrite map_map.
    rewrite (map_ext _ (fun _ => l))
      by (intros ar; rewrite <- Hl; apply take_app_length).
    rewrite map_const_replicate. reflexivity.
Qed.

(** The property records of the enriched frame: the property rows in
    their order, each once per matching agent row and once when none
    matches. *)
Lemma property_part_enriched (property_df agent_df : frame) :
  well_formed property_df ->
  map (property_part property_df) (rows (enriched keys_as_float property_df agent_df))
  = flat_map (fun l => replicate
                         (Nat.max 1 (length (matching_agents keys_as_float property_df agent_df l)))
                         l)
             (rows property_df).
Proof.
  intros Hwf. unfold enriched. cbn [rows]. unfold well_formed in Hwf.
  induction Hwf as [|l ls Hl _ IH]; simpl; [reflexivity|].
  rewrite map_app, IH, (property_part_enriched_rows _ _ _ Hl). reflexivity.
Qed.

(** C1, as the code has it. Whenever the labels the merge needs are
    there, [merge_and_enrich] returns; cut back to the property columns,
    its rows are the property records in their order, each once per agent
    row whose identifier [pd.merge] matches to its foreign key and once
    when none matches. The output therefore has at least as many rows as
    the property input, and when no foreign key matches more than one
    agent row it has exactly as many: row by row, in order, the property
    record extended by three agent attributes. *)
Theorem merge_row_count (property_df agent_df : frame) :
  well_formed property_df ->
  joinable keys_mergeable property_df agent_df ->
  exists m,
    merge_and_enrich keys_mergeable keys_as_float property_df agent_df = Ok m /\
    map (property_part property_df) (rows m)
      = flat_map (fun l => replicate
                             (Nat.max 1 (length (matching_agents keys_as_float
                                                   property_df agent_df l)))
                             l)
                 (rows property_df) /\
    frame_len m
      = list_sum (map (fun l => Nat.max 1 (length (matching_agents keys_as_float
                                                     property_df agent_df l)))
                      (rows property_df)) /\
    frame_len property_df <= frame_len m /\
    (Forall (fun l => length (matching_agents keys_as_float property_df agent_df l) <= 1)
            (rows property_df) ->
     frame_len m = frame_len property_df /\
     Forall2 (fun l r => exists attrs, r = l ++ attrs /\ length attrs = 3)
             (rows property_df) (rows m)).
Proof.
  intros Hwf Hjoin. exists (enriched keys_as_float property_df agent_df).
  split; [now apply merge_and_enrich_total|].
  split; [now apply property_part_enriched|].
  unfold frame_len, enriched. cbn [rows].
  generalize (rows property_df) as ls. intros ls.
  assert (Hsum : forall ls,
             length (flat_map (enriched_rows keys_as_float property_df agent_df) ls)
             = list_sum (map (fun l => Nat.max 1
                                (length (matching_agents keys_as_float
                                           property_df agent_df l))) ls)).
  { clear. intros ls. induction ls as [|l ls IH]; simpl; [reflexivity|].
    now rewrite length_app, IH, enriched_rows_length. }
  split; [apply Hsum|]. split.
  - rewrite Hsum. induction ls as [|l ls IH]; simpl in *; lia.
  - intros Huniq.
    assert (HF : Forall2 (fun l r => exists attrs, r = l ++ attrs /\ length attrs = 3)
                         ls (flat_map (enriched_rows keys_as_float property_df agent_df) ls)).
    { induction Huniq as [|l ls Hl _ IH]; simpl; [constructor|].
      destruct (enriched_rows_single property_df agent_df l Hl) as (attrs & -> & Hlen).
      simpl. constructor; [now exists attrs | exact IH]. }
    split; [|exact HF]. symmetry. eapply Forall2_length, HF.
Qed.

End MergeFacts.

(** C1 as stated fails: an agent identifier carried by two agent rows
    makes the one property record appear twice. *)
Lemma merge_row_count_counterexample :
  ~ (forall km kf property_df agent_df m,
        frame_empty property_df = false ->
        frame_empty agent_df = false ->
        merge_and_enrich km kf property_df agent_df = Ok m ->
        frame_len m = frame_len property_df).
Proof.
  intros H.
  specialize (H same_kind_keys null_makes_float dup_properties dup_agents _ eq_refl eq_refl eq_refl).
  discriminate H.
Qed.

Lemma ex_joinable : joinable same_kind_keys ex_properties ex_agents.
Proof.
  unfold joinable. split; [simpl; tauto|].
  split; [intros c Hc; simpl in *; tauto|].
  split; [|reflexivity].
  intros t Ht Hin. simpl in *. intuition congruence.
Qed.

Lemma ex_well_formed : well_formed ex_properties.
Proof. repeat constructor. Qed.

Lemma merge_row_count_witness :
  well_formed ex_properties /\
  joinable same_kind_keys ex_properties ex_agents /\
  exists m,
    merge_and_enrich same_kind_keys null_makes_float ex_properties ex_agents = Ok m /\
    frame_len m = frame_len ex_properties.
Proof.
  split; [exact ex_well_formed|]. split; [exact ex_joinable|].
  destruct (merge_row_count same_kind_keys null_makes_float ex_properties ex_agents
              ex_well_formed ex_joinable) as (m & Hm & _ & _ & _ & Huniq).
  exists m. split; [exact Hm|]. apply Huniq.
  repeat constructor.
Defined.

Section SentinelFacts.

Variable keys_mergeable : list value -> list value -> bool.
Variable keys_as_float : list value -> list value -> bool.

Lemma filter_none {A : Type} (f : A -> bool) (l : list A) :
  (forall x, In x l -> f x = false) -> List.filter f l = [].
Proof.
  induction l as [|x l IH]; simpl; intros H; [reflexivity|].
  rewrite (H x) by now left. apply IH. intros y Hy. apply H. now right.
Qed.

Lemma enriched_rows_prefix (property_df agent_df : frame) (l r : row) :
  In r (enriched_rows keys_as_float property_df agent_df l) -> exists x, r = l ++ x.
Proof.
  unfold enriched_rows.
  destruct (matching_agents keys_as_float property_df agent_df l) as [|r0 ms].
  - intros [<-|[]]. now exists sentinels.
  - intros H. apply in_map_iff in H. destruct H as (ar & <- & _). eauto.
Qed.

Lemma cell_app_l (i : nat) (l x : row) : i < length l -> cell i (l ++ x) = cell i l.
Proof. intros H. unfold cell. now rewrite lookup_app_l. Qed.

Lemma cell_app_r (k : nat) (l x : row) : cell (length l + k) (l ++ x) = cell k x.
Proof.
  unfold cell. rewrite lookup_app_r by lia. do 2 f_equal. lia.
Qed.


End SentinelFacts.

(** Key columns compared as float64: the foreign key 2^53 joins the
    identifiers 2^53 and 2^53 + 1, so the record appears twice; the record
    with the null foreign key gets the sentinels. *)
Lemma wide_keys_join :
  merge_and_enrich same_kind_keys null_makes_float wide_properties wide_agents_two
  = Ok wide_enriched.
Proof. vm_compute. reflexivity. Qed.

(** Compared as integers the same keys join once. *)
Lemma wide_keys_join_exact :
  merge_and_enrich same_kind_keys (fun _ _ => false) wide_properties wide_agents_two
  = Ok (Frame ["id"; "agentId"; "city";
               "agent_companyName"; "agent_email"; "agent_phoneNumber"]
              [[VNum 1; VNum 9007199254740992; VText "Gotham";
                VText "Acme Homes"; VText "b@x.com"; VText "556"];
               [VNum 2; VNull; VText "Metropolis";
                VText "No Agent Assigned"; VText "N/A"; VText "N/A"]]).
Proof. vm_compute. reflexivity. Qed.


(** A suffix that repeats a label of the property table is refused by
    the merge itself. *)
Lemma suffix_duplicate_refused :
  merge_and_enrich same_kind_keys null_makes_float ex_collide_twice ex_agents
  = Raise (ValueError "Passing 'suffixes' which cause duplicate columns is not allowed.").
Proof. reflexivity. Qed.

Lemma ex_merge :
  merge_and_enrich same_kind_keys null_makes_float ex_properties ex_agents
  = Ok (Frame ["id"; "agentId"; "propertyType"; "city"; "price";
               "agent_companyName"; "agent_email"; "agent_phoneNumber"]
              [[VNum 1; VNum 10; VText "House"; VText "Metropolis"; VNum 200000;
                VText "Acme Realty"; VText "a@x.com"; VText "555"];
               [VNum 2; VNum 99; VText "Condo"; VText "Gotham"; VNum 150000;
                VText "No Agent Assigned"; VText "N/A"; VText "N/A"]]).
Proof. reflexivity. Qed.



(** ** Filter Engine *)

Lemma value_eqb_true (a b : value) : value_eqb a b = true <-> a = b /\ a <> VNull.
Proof.
  destruct a as [s|m|], b as [t|n|]; simpl;
    try (split; [discriminate | intros [H1 H2]; congruence]).
  - rewrite String.eqb_eq. split; [intros ->; split; [reflexivity|discriminate] | intros [[= ->] _]; reflexivity].
  - rewrite Z.eqb_eq. split; [intros ->; split; [reflexivity|discriminate] | intros [[= ->] _]; reflexivity].
Qed.

Example ex_filter_house :
  apply_filters ex_enriched (VText "House") (VText "All") (VText "All")
  = Ok (Frame (columns ex_enriched)
              [[VNum 1; VNum 10; VText "House"; VText "Metropolis"; VNum 200000;
                VText "Acme Realty"; VText "a@x.com"; VText "555"]]).
Proof. reflexivity. Qed.

Section FilterFacts.

Lemma filter_true {A : Type} (l : list A) : List.filter (fun _ => true) l = l.
Proof. induction l as [|x l IH]; simpl; [reflexivity | now rewrite IH]. Qed.

Lemma filter_filter {A : Type} (f g : A -> bool) (l : list A) :
  List.filter g (List.filter f l) = List.filter (fun x => f x && g x) l.
Proof.
  induction l as [|x l IH]; simpl; [reflexivity|].
  destruct (f x); simpl; [destruct (g x)|]; now rewrite IH.
Qed.

Lemma offered_column (c : string) (df : frame) (selected : value) :
  offered c df selected -> not_all selected = true -> In c (columns df).
Proof.
  unfold offered, filter_options. intros Hin Hna.
  destruct (get_loc c (columns df)) as [i|] eqn:E.
  - apply has_column_true. unfold has_column. now rewrite E.
  - destruct Hin as [<-|[]]. discriminate Hna.
Qed.

(** One filter statement, on a frame with the columns of [df]. *)
Lemma filter_step_spec (c : string) (selected : value) (df : frame) (rs : list row) :
  (not_all selected = true -> In c (columns df)) ->
  filter_step c selected (Frame (columns df) rs)
  = Ok (Frame (columns df) (List.filter (constraint_holds df c selected) rs)).
Proof.
  intros Hcol. unfold filter_step, constraint_holds.
  destruct (not_all selected) eqn:Hna; simpl.
  - specialize (Hcol eq_refl). unfold select_eq, value_at. cbn [columns rows].
    destruct (get_loc c (columns df)) as [i|] eqn:E; [reflexivity|].
    apply get_loc_None in E. tauto.
  - now rewrite filter_true.
Qed.




(** C4. With the wildcard selected in all three boxes the filter
    returns its input. *)
Theorem filter_all_wildcards (df : frame) :
  apply_filters df (VText "All") (VText "All") (VText "All") = Ok df.
Proof. reflexivity. Qed.

(** C10. The option ["All"] is the wildcard even when the column holds
    the value ["All"]: selecting it leaves the frame as it is, in each of
    the three boxes, and when the column also holds another value no
    selection in that box returns just the rows holding ["All"]. *)
Theorem all_value_not_isolable (df : frame) (c : string) (i : nat) :
  get_loc c (columns df) = Some i ->
  In (VText "All") (map (cell i) (rows df)) ->
  filter_step c (VText "All") df = Ok df /\
  (forall s_city s_company,
      apply_filters df (VText "All") s_city s_company
      = do x <- filter_step "city" s_city df; filter_step "agent_companyName" s_company x) /\
  (forall s_type s_company,
      apply_filters df s_type (VText "All") s_company
      = do x <- filter_step "propertyType" s_type df;
        filter_step "agent_companyName" s_company x) /\
  (forall s_type s_city,
      apply_filters df s_type s_city (VText "All")
      = do x <- filter_step "propertyType" s_type df; filter_step "city" s_city x) /\
  ((exists r, In r (rows df) /\ value_eqb (cell i r) (VText "All") = false) ->
   forall selected out,
     filter_step c selected df = Ok out ->
     rows out <> List.filter (fun r => value_eqb (cell i r) (VText "All")) (rows df)).
Proof.
  intros Hi Hall. split; [reflexivity|]. split; [reflexivity|].
  split; [intros s_type s_company; unfold apply_filters;
          now destruct (filter_step "propertyType" s_type df)|].
  split; [intros s_type s_city; unfold apply_filters;
          destruct (filter_step "propertyType" s_type df) as [x|]; simpl; [|reflexivity];
          now destruct (filter_step "city" s_city x)|].
  intros (r & Hr & Hne) selected out. unfold filter_step.
  destruct (not_all selected) eqn:Hna.
  - unfold select_eq. rewrite Hi. intros [= <-]. cbn [rows]. intros Heq.
    apply in_map_iff in Hall. destruct Hall as (ra & Hra & Hain).
    assert (Hin : In ra (List.filter (fun r => value_eqb (cell i r) selected) (rows df))).
    { rewrite Heq. apply filter_In. split; [exact Hain|]. now rewrite Hra. }
    apply filter_In in Hin. destruct Hin as [_ Hsel]. rewrite Hra in Hsel.
    destruct selected as [s| |]; try discriminate Hsel.
    change (String.eqb "All" s = true) in Hsel. apply String.eqb_eq in Hsel.
    subst s. discriminate Hna.
  - intros [= <-] Heq.
    assert (Hin : In r (List.filter (fun r => value_eqb (cell i r) (VText "All")) (rows df)))
      by (rewrite <- Heq; exact Hr).
    apply filter_In in Hin. destruct Hin as [_ Hsel]. congruence.
Qed.

End FilterFacts.

(** ** Table Fetcher *)

Section FetchFacts.

Variable connect_answer : nat -> option string.
Variable query_answer : nat -> string -> Z -> string + frame.

Abbreviation fetch_data' := (fetch_data connect_answer query_answer).
Abbreviation fetch_data_cached' := (fetch_data_cached connect_answer query_answer).

(** One run of the body of [fetch_data], step by step. *)
Lemma fetch_data_run (settings : conninfo) (table_name : string) (limit : Z) (w : world) :
  fetch_data' settings table_name limit w =
  let n := length (attempts w) in
  let closed := List.filter (fun c => negb (Nat.eqb c n)) (live w) in
  match connect_answer n with
  | Some msg =>
      (Done empty_frame, [fetch_error_notice table_name msg],
       World (attempts w ++ [settings]) (live w) (issued w) (cache w))
  | None =>
      let w' := World (attempts w ++ [settings]) closed
                      (issued w ++ [(table_name, limit)]) (cache w) in
      match query_answer n table_name limit with
      | inl msg => (Done empty_frame, [fetch_error_notice table_name msg], w')
      | inr df => (Done df, [], w')
      end
  end.
Proof.
  unfold fetch_data, call, try_finally, try_except, bind, outer, psycopg2_connect,
    read_sql, conn_close, set_local, get_local, emit, ret.
  cbn [fst snd].
  destruct (connect_answer (length (attempts w))) as [msg|]; [reflexivity|].
  cbn [fst snd attempts live issued cache].
  destruct (query_answer (length (attempts w)) table_name limit) as [msg|df];
    cbn [fst snd attempts live issued cache app List.filter];
    rewrite Nat.eqb_refl; reflexivity.
Qed.

Lemma filter_bounded (n : nat) (l : list nat) :
  Forall (fun c => c < n) l -> List.filter (fun c => negb (Nat.eqb c n)) l = l.
Proof.
  induction 1 as [|c l Hc _ IH]; simpl; [reflexivity|].
  destruct (Nat.eqb_spec c n); [lia|]. simpl. now rewrite IH.
Qed.

(** C5. [fetch_data] always returns: the fetched rows, or the empty
    frame after writing an error notice when the connection or the query
    fails. When the connection attempt fails nothing was opened; when it
    succeeds the connection it opened is no longer live at the return,
    whether the query failed or not. The connections live before the
    call are the ones live after it. *)
Theorem fetch_data_contains_failure
    (settings : conninfo) (table_name : string) (limit : Z) (w : world) :
  let n := length (attempts w) in
  exists df ev w',
    fetch_data' settings table_name limit w = (Done df, ev, w') /\
    (live_bounded w -> live w' = live w) /\
    match connect_answer n with
    | Some msg =>
        df = empty_frame /\ ev = [fetch_error_notice table_name msg] /\
        live w' = live w
    | None =>
        ~ In n (live w') /\
        match query_answer n table_name limit with
        | inl msg => df = empty_frame /\ ev = [fetch_error_notice table_name msg]
        | inr rows_read => df = rows_read /\ ev = []
        end
    end.
Proof.
  intros n. subst n. rewrite fetch_data_run. cbv zeta.
  set (n := length (attempts w)).
  assert (Hclosed : ~ In n (List.filter (fun c => negb (Nat.eqb c n)) (live w))).
  { intros H. apply filter_In in H. destruct H as [_ H].
    now rewrite Nat.eqb_refl in H. }
  destruct (connect_answer n) as [msg|].
  - eexists _, _, _. split; [reflexivity|]. cbn [live]. tauto.
  - destruct (query_answer n table_name limit) as [msg|rows_read];
      (eexists _, _, _; split; [reflexivity|]; cbn [live];
       split; [intros Hb; now apply filter_bounded | tauto]).
Qed.

End FetchFacts.

(** ** The fetch cache *)

Section CacheFacts.

Variable connect_answer : nat -> option string.
Variable query_answer : nat -> string -> Z -> string + frame.

Abbreviation cached_fetch := (fetch_data_cached connect_answer query_answer).
Abbreviation run_calls' := (run_calls connect_answer query_answer).

Lemma queries_for_app (key : string * Z) (a b : list conninfo) (l l' : list nat)
    (qs : list (string * Z)) (q : string * Z) (c c' : gmap (string * Z) cache_entry) :
  queries_for key (World a l (qs ++ [q]) c)
  = queries_for key (World b l' qs c') + (if bool_decide (q = key) then 1 else 0).
Proof.
  unfold queries_for. cbn [issued]. rewrite List.filter_app, length_app. simpl.
  now destruct (bool_decide (q = key)).
Qed.

(** A miss runs the body once, sends at most the one query of its key,
    and stores what the body returned. *)
Lemma run_and_store_fetch (settings : conninfo) (now : Z) (table_name : string)
    (limit : Z) (w : world) :
  exists df ev w' d,
    run_and_store now (table_name, limit)
      (fetch_data connect_answer query_answer settings table_name limit) w
    = (Done df, ev, w') /\
    cache w' = <[(table_name, limit) := CacheEntry df ev now]> (cache w) /\
    d <= 1 /\
    (forall k, queries_for k w'
               = queries_for k w + (if bool_decide ((table_name, limit) = k) then d else 0)).
Proof.
  unfold run_and_store. rewrite fetch_data_run. cbv zeta.
  destruct (connect_answer (length (attempts w))) as [msg|];
    [|destruct (query_answer (length (attempts w)) table_name limit) as [msg|df]].
  - eexists _, _, _, 0. split; [reflexivity|]. cbn [attempts live issued cache].
    split; [reflexivity|]. split; [lia|]. intros k. unfold queries_for. cbn [issued].
    destruct (bool_decide _); lia.
  - eexists _, _, _, 1. split; [reflexivity|]. cbn [attempts live issued cache].
    split; [reflexivity|]. split; [lia|]. intros k.
    rewrite (queries_for_app k _ (attempts w) _ (live w) _ _ _ (cache w)).
    destruct w; reflexivity.
  - eexists _, _, _, 1. split; [reflexivity|]. cbn [attempts live issued cache].
    split; [reflexivity|]. split; [lia|]. intros k.
    rewrite (queries_for_app k _ (attempts w) _ (live w) _ _ _ (cache w)).
    destruct w; reflexivity.
Qed.

(** Fetches under other keys leave a key's entry and query count alone. *)
Lemma run_calls_frame (settings : conninfo) (key : string * Z)
    (calls : list (Z * (string * Z))) (w : world) :
  Forall (fun c => snd c <> key) calls ->
  cache (run_calls' settings calls w) !! key = cache w !! key /\
  queries_for key (run_calls' settings calls w) = queries_for key w.
Proof.
  intros Hother. revert w.
  induction Hother as [|[t [table_name limit]] calls Hk _ IH]; intros w;
    [split; reflexivity|].
  cbn [snd] in Hk. cbn [run_calls].
  destruct (IH (snd (cached_fetch settings t table_name limit w))) as [IHc IHq].
  rewrite IHc, IHq. clear IH IHc IHq.
  unfold fetch_data_cached, cache_data.
  destruct (run_and_store_fetch settings t table_name limit w)
    as (df & ev & w' & d & Hrun & Hc & _ & Hq).
  destruct (cache w !! (table_name, limit)) as [e|];
    [destruct (fresh t e); [split; reflexivity|]|];
    rewrite Hrun; cbn [snd]; rewrite Hc, (Hq key);
    (split; [now apply lookup_insert_ne
            | rewrite bool_decide_eq_false_2 by exact Hk; lia]).
Qed.

(** C6. Two fetches with the same table name and limit, with any
    fetches of other keys between them. When the second comes less than
    [ttl] seconds after the first, the two send at most one query
    between them. When the second comes within the [ttl] of the entry
    that served the first, it sends nothing, opens no connection, and
    returns what the first returned. *)
Theorem cached_fetch_at_most_once
    (settings : conninfo) (table_name : string) (limit : Z) (t1 t2 : Z)
    (between : list (Z * (string * Z))) (w w1 w2 : world)
    (r1 r2 : outcome frame) (ev1 ev2 : list ui_event) :
  Forall (fun c => snd c <> (table_name, limit)) between ->
  cached_fetch settings t1 table_name limit w = (r1, ev1, w1) ->
  cached_fetch settings t2 table_name limit (run_calls' settings between w1) = (r2, ev2, w2) ->
  ((t2 < t1 + ttl)%Z ->
   queries_for (table_name, limit) w2 <= queries_for (table_name, limit) w + 1) /\
  exists e,
    cache w1 !! (table_name, limit) = Some e /\
    r1 = Done (cached_frame e) /\
    ((t2 < stored_at e + ttl)%Z ->
     r2 = r1 /\ ev2 = cached_elements e /\ w2 = run_calls' settings between w1).
Proof.
  intros Hother H1 H2.
  destruct (run_calls_frame settings (table_name, limit) between w1 Hother) as [Fc Fq].
  set (w1' := run_calls' settings between w1) in *.
  set (key := (table_name, limit)) in *.
  (* the second call, given the entry it finds *)
  assert (Hsecond : forall e, cache w1 !! key = Some e ->
            ((t2 < stored_at e + ttl)%Z ->
             r2 = Done (cached_frame e) /\ ev2 = cached_elements e /\ w2 = w1') /\
            queries_for key w2 <= queries_for key w1 + 1).
  { intros e He. unfold fetch_data_cached, cache_data in H2. fold key in H2.
    rewrite Fc, He in H2. unfold fresh in H2.
    destruct (Z.ltb_spec t2 (stored_at e + ttl)) as [Hlt|Hge].
    - injection H2 as <- <- <-. split; [auto|]. rewrite Fq. lia.
    - split; [lia|].
      destruct (run_and_store_fetch settings t2 table_name limit w1')
        as (df & ev & w' & d & Hrun & _ & Hd & Hq).
      fold key in Hrun. rewrite Hrun in H2. injection H2 as _ _ <-.
      rewrite (Hq key), Fq. destruct (bool_decide _); lia. }
  unfold fetch_data_cached, cache_data in H1. fold key in H1.
  destruct (run_and_store_fetch settings t1 table_name limit w)
    as (df & ev & w' & d & Hrun & Hc & Hd & Hq). fold key in Hrun, Hc, Hq.
  assert (Hmiss : run_and_store t1 key
                    (fetch_data connect_answer query_answer settings table_name limit) w
                  = (r1, ev1, w1) ->
          ((t2 < t1 + ttl)%Z -> queries_for key w2 <= queries_for key w + 1) /\
          exists e, cache w1 !! key = Some e /\ r1 = Done (cached_frame e) /\
            ((t2 < stored_at e + ttl)%Z ->
             r2 = r1 /\ ev2 = cached_elements e /\ w2 = w1')).
  { rewrite Hrun. intros [= <- <- <-].
    assert (He : cache w' !! key = Some (CacheEntry df ev t1))
      by (rewrite Hc; apply lookup_insert_eq).
    destruct (Hsecond _ He) as [Hhit _]. cbn [stored_at cached_frame cached_elements] in Hhit.
    split.
    - intros Ht. destruct (Hhit Ht) as (_ & _ & ->). rewrite Fq, (Hq key).
      destruct (bool_decide _); lia.
    - exists (CacheEntry df ev t1). split; [exact He|]. split; [reflexivity|].
      exact Hhit. }
  destruct (cache w !! key) as [e|] eqn:He; [|exact (Hmiss H1)].
  destruct (fresh t1 e) eqn:Hf; [|exact (Hmiss H1)].
  injection H1 as <- <- <-. destruct (Hsecond e He) as [Hhit Hle].
  split; [intros _; exact Hle|].
  exists e. split; [exact He|]. split; [reflexivity|]. exact Hhit.
Qed.

End CacheFacts.

(** ** The page *)

Section PageFacts.

Variable keys_mergeable : list value -> list value -> bool.
Variable keys_as_float : list value -> list value -> bool.
Variable connect_answer : nat -> option string.
Variable query_answer : nat -> string -> Z -> string + frame.
Variable user_choice : string -> nat.
Variable render_tabs : frame -> frame -> frame -> frame -> list ui_event * option exn.

Abbreviation fetch' := (fetch_data_cached connect_answer query_answer).
Abbreviation pipeline' := (pipeline keys_mergeable keys_as_float user_choice render_tabs).
Abbreviation main' :=
  (main keys_mergeable keys_as_float connect_answer query_answer user_choice render_tabs).
Abbreviation app' :=
  (app keys_mergeable keys_as_float connect_answer query_answer user_choice render_tabs).

(** A cached fetch always returns a frame. *)
Lemma cached_fetch_done (settings : conninfo) (now : Z) (table_name : string)
    (limit : Z) (w : world) :
  exists df ev w', fetch' settings now table_name limit w = (Done df, ev, w').
Proof.
  unfold fetch_data_cached, cache_data.
  destruct (run_and_store_fetch connect_answer query_answer settings now table_name limit w)
    as (df & ev & w' & _ & Hrun & _).
  destruct (cache w !! (table_name, limit)) as [e|]; [destruct (fresh now e)|]; eauto.
Qed.

(** The page's [try] block, once the two tables are fetched. *)
Lemma main_run (settings : conninfo) (now : Z) (agent_table property_table : string)
    (w wa wp : world) (agent_df property_df : frame) (eva evp : list ui_event) :
  fetch' settings now agent_table 1000 w = (Done agent_df, eva, wa) ->
  fetch' settings now property_table 1000 wa = (Done property_df, evp, wp) ->
  main' settings now agent_table property_table w =
  let '(r, ev, w') := try_except (pipeline' agent_df property_df) on_unexpected wp in
  (r, eva ++ evp ++ ev, w').
Proof.
  intros Ha Hp. unfold main, try_except, bind. rewrite Ha, Hp.
  destruct (pipeline' agent_df property_df wp) as [[[u|e|] ev] w']; try reflexivity.
  destruct (on_unexpected e w') as [[r ev2] w2]. now rewrite !app_assoc.
Qed.

(** A select box over the options of a column returns an offered option. *)
Lemma selectbox_offered (label c : string) (df : frame) :
  offered c df (selectbox_value user_choice label (filter_options c df)).
Proof.
  unfold offered, selectbox_value.
  destruct (filter_options c df !! user_choice label) as [v|] eqn:E; simpl.
  - apply list_elem_of_In. eapply list_elem_of_lookup_2, E.
  - unfold filter_options. destruct (get_loc c (columns df)); left; reflexivity.
Qed.

(** The page when the merge returns: the merged frame's head, the three
    select boxes, then the frame filtered by what they returned, and the
    tabs. *)
Lemma pipeline_shows_filtered (agent_df property_df m : frame) (w : world) :
  frame_empty agent_df = false ->
  frame_empty property_df = false ->
  merge_and_enrich keys_mergeable keys_as_float property_df agent_df = Ok m ->
  let types := filter_options "propertyType" m in
  let cities := filter_options "city" m in
  let companies := filter_options "agent_companyName" m in
  let s_type := selectbox_value user_choice "Select Property Type" types in
  let s_city := selectbox_value user_choice "Select City" cities in
  let s_company := selectbox_value user_choice "Select Agent Company" companies in
  let filtered :=
    Frame (columns m) (List.filter (row_selected m s_type s_city s_company) (rows m)) in
  pipeline' agent_df property_df w
  = (match snd (render_tabs filtered agent_df property_df m) with
     | Some e => Raised e
     | None => Done tt
     end,
     [Success "✅ Connected to database and fetched data.";
      Subheader "Combined Property and Agent Data";
      Dataframe (head_frame m);
      SidebarHeader "Filters";
      Selectbox "Select Property Type" types;
      Selectbox "Select City" cities;
      Selectbox "Select Agent Company" companies;
      Subheader ("Filtered Data (" +:+ pretty (frame_len filtered) +:+ " rows)");
      Dataframe filtered] ++ fst (render_tabs filtered agent_df property_df m),
     w).
Proof.
  intros Ea Ep Hm types cities companies s_type s_city s_company filtered.
  unfold pipeline, bind, st_selectbox, emit, ret. rewrite Ea, Ep, Hm.
  cbn [andb negb lift_result ret bind].
  fold types cities companies. cbn [bind emit ret].
  fold s_type s_city s_company.
  assert (Hfiltered : apply_filters m s_type s_city s_company = Ok filtered).
  { unfold apply_filters, filtered. destruct m as [cols rs].
    pose proof (fun c s rs' H => filter_step_spec c s (Frame cols rs) rs'
                  (offered_column c (Frame cols rs) s H)) as Hstep.
    cbn [columns rows] in Hstep |- *.
    rewrite (Hstep "propertyType") by apply selectbox_offered. cbn [result_bind].
    rewrite (Hstep "city") by apply selectbox_offered. cbn [result_bind].
    rewrite (Hstep "agent_companyName") by apply selectbox_offered.
    rewrite !filter_filter. do 2 f_equal.
    apply filter_ext. intros r. unfold row_selected. now rewrite andb_assoc. }
  rewrite Hfiltered. cbn [lift_result ret]. unfold st_tabs.
  destruct (render_tabs filtered agent_df property_df m) as [ev [e|]]; reflexivity.
Qed.

(** C7. With an empty table there is no merge. Both empty: one warning,
    then the run stops. Exactly one empty: a warning, then the other
    table is shown as fetched, with a notice that no merge was done. *)
Theorem empty_table_skips_merge
    (settings : conninfo) (now : Z) (agent_table property_table : string)
    (w wa wp : world) (agent_df property_df : frame) (eva evp : list ui_event) :
  fetch' settings now agent_table 1000 w = (Done agent_df, eva, wa) ->
  fetch' settings now property_table 1000 wa = (Done property_df, evp, wp) ->
  (frame_empty agent_df = true -> frame_empty property_df = true ->
   main' settings now agent_table property_table w
   = (Stopped,
      eva ++ evp ++ [Warning "⚠️ No data returned from either Agent or Property tables."],
      wp)) /\
  (frame_empty agent_df = true -> frame_empty property_df = false ->
   main' settings now agent_table property_table w
   = (Done tt,
      eva ++ evp ++
        [Warning "⚠️ No data returned from Agent table.";
         Success "✅ Connected to database and fetched data.";
         Subheader "Property Data";
         Dataframe property_df;
         Info "Agent data is empty, cannot perform merge or agent-related visualizations."],
      wp)) /\
  (frame_empty agent_df = false -> frame_empty property_df = true ->
   main' settings now agent_table property_table w
   = (Done tt,
      eva ++ evp ++
        [Warning "⚠️ No data returned from Property table.";
         Success "✅ Connected to database and fetched data.";
         Subheader "Agent Data";
         Dataframe agent_df;
         Info "Property data is empty, cannot perform merge or property-related visualizations."],
      wp)).
Proof.
  intros Ha Hp. rewrite (main_run _ _ _ _ _ _ _ _ _ _ _ Ha Hp).
  unfold pipeline, try_except.
  repeat split; intros Ea Ep; rewrite Ea, Ep; reflexivity.
Qed.

(** The merge raises [KeyError] when a label it needs is absent: first
    for the agent columns, then for the foreign key. *)
Lemma merge_and_enrich_missing (property_df agent_df : frame) :
  (~ In "agentId" (columns property_df) \/
   exists c, In c agent_cols_to_merge /\ ~ In c (columns agent_df)) ->
  exists labels,
    merge_and_enrich keys_mergeable keys_as_float property_df agent_df = Raise (KeyError labels).
Proof.
  intros Hmiss. unfold merge_and_enrich, select_agent_columns, getitem_columns.
  destruct (List.filter (fun c => negb (has_column agent_df c)) agent_cols_to_merge)
    as [|c0 missing] eqn:Hf; [|eexists; reflexivity].
  destruct Hmiss as [Hkey | (c & Hc & Hnin)].
  - apply get_loc_None in Hkey. cbn [result_bind]. unfold merge_left.
    rewrite Hkey. eexists; reflexivity.
  - exfalso. assert (Hin : In c []); [|exact Hin].
    rewrite <- Hf. apply filter_In. split; [exact Hc|].
    destruct (has_column agent_df c) eqn:E; [|reflexivity].
    apply has_column_true in E. tauto.
Qed.

(** C8. When both tables have rows and the property table lacks
    [agentId] or the agent table lacks one of [id], [companyName],
    [email], [phoneNumber], the merge raises [KeyError]; the page's
    handler catches it and writes an error notice, and the run ends
    normally. *)
Theorem schema_mismatch_is_reported
    (settings : conninfo) (now : Z) (agent_table property_table : string)
    (w wa wp : world) (agent_df property_df : frame) (eva evp : list ui_event) :
  fetch' settings now agent_table 1000 w = (Done agent_df, eva, wa) ->
  fetch' settings now property_table 1000 wa = (Done property_df, evp, wp) ->
  frame_empty agent_df = false ->
  frame_empty property_df = false ->
  (~ In "agentId" (columns property_df) \/
   exists c, In c agent_cols_to_merge /\ ~ In c (columns agent_df)) ->
  exists labels,
    merge_and_enrich keys_mergeable keys_as_float property_df agent_df = Raise (KeyError labels) /\
    main' settings now agent_table property_table w
    = (Done tt,
       eva ++ evp ++
         Success "✅ Connected to database and fetched data."
         :: Error ("❌ An unexpected error occurred: " +:+ exn_str (KeyError labels))
         :: (if contains "SSL" (exn_str (KeyError labels)) then
               [Info "💡 Try setting DB_SSL_MODE=disable in your .env file if the database doesn't support SSL"]
             else []),
       wp).
Proof.
  intros Ha Hp Ea Ep Hmiss.
  destruct (merge_and_enrich_missing property_df agent_df Hmiss) as (labels & Hmerge).
  exists labels. split; [exact Hmerge|].
  rewrite (main_run _ _ _ _ _ _ _ _ _ _ _ Ha Hp).
  unfold pipeline, try_except, bind. rewrite Ea, Ep, Hmerge.
  cbn [andb negb emit ret lift_result raise app].
  unfold on_unexpected, bind, emit.
  destruct (contains "SSL" (exn_str (KeyError labels))); reflexivity.
Qed.

Lemma app_stops_on_credentials (env : gmap string string) (now : Z) (w : world) :
  credentials_present env = false ->
  app' env now w
  = (Stopped,
     startup_elements env ++
       [Error "❌ Missing database credentials! Please check your .env file.";
        Info "Required variables: DB_HOST, DB_NAME, DB_USER, DB_PASSWORD"],
     w).
Proof.
  intros H. unfold app, bind, emit. cbn [host database user password connection_settings].
  change (forallb truthy [env !! "DB_HOST"; env !! "DB_NAME"; env !! "DB_USER";
                          env !! "DB_PASSWORD"])
    with (credentials_present env).
  rewrite H. reflexivity.
Qed.

Lemma app_stops_on_tables (env : gmap string string) (now : Z) (w : world) :
  credentials_present env = true ->
  tables_present env = false ->
  app' env now w
  = (Stopped,
     startup_elements env ++
       [Error "❌ Missing table names! Please set DB_TABLE_AGENT and DB_TABLE_PROPERTY in your .env file."],
     w).
Proof.
  intros Hc Ht. unfold app, bind, emit. cbn [host database user password connection_settings].
  change (forallb truthy [env !! "DB_HOST"; env !! "DB_NAME"; env !! "DB_USER";
                          env !! "DB_PASSWORD"])
    with (credentials_present env).
  change (forallb truthy [env !! "DB_TABLE_AGENT"; env !! "DB_TABLE_PROPERTY"])
    with (tables_present env).
  rewrite Hc, Ht. reflexivity.
Qed.

(** With the six required values present the page goes on to fetch,
    whether or not the port and the TLS mode are set. *)
Lemma app_proceeds (env : gmap string string) (now : Z) (w : world) :
  credentials_present env = true ->
  tables_present env = true ->
  app' env now w
  = let '(r, ev, w') :=
      main' (connection_settings env) now
            (py_str (env !! "DB_TABLE_AGENT")) (py_str (env !! "DB_TABLE_PROPERTY")) w in
    (r, startup_elements env ++ ev, w').
Proof.
  intros Hc Ht. unfold app, bind, emit. cbn [host database user password connection_settings].
  change (forallb truthy [env !! "DB_HOST"; env !! "DB_NAME"; env !! "DB_USER";
                          env !! "DB_PASSWORD"])
    with (credentials_present env).
  change (forallb truthy [env !! "DB_TABLE_AGENT"; env !! "DB_TABLE_PROPERTY"])
    with (tables_present env).
  rewrite Hc, Ht. cbn [negb ret].
  destruct (main' _ now _ _ w) as [[r ev] w']. reflexivity.
Qed.

Lemma forallb_missing (env : gmap string string) (vars : list string) (v : string) :
  In v vars -> truthy (env !! v) = false ->
  forallb (fun c => truthy (env !! c)) vars = false.
Proof.
  intros Hin Hv. destruct (forallb _ vars) eqn:E; [|reflexivity].
  rewrite forallb_forall in E. rewrite (E v Hin) in Hv. discriminate.
Qed.

(** The notices of a run that stops at a configuration check are the
    ones of the check: the elements written before hold none. *)
Lemma startup_notice (env : gmap string string) (l : list ui_event) (s : string) :
  In (Error s) (startup_elements env ++ l) \/ In (Info s) (startup_elements env ++ l) ->
  In (Error s) l \/ In (Info s) l.
Proof.
  intros [H|H]; apply in_app_or in H; destruct H as [H|H]; [|now left| |now right];
    simpl in H; destruct H as [H|[H|[H|[]]]]; discriminate H.
Qed.

(** C9, as the code has it. When a required value is absent or empty
    the run stops before anything is fetched: the world is untouched. The
    notice names the variables of the check that failed: when a connection
    value is missing it names the four connection variables and no table
    variable, a missing one neither; when the four connection values are
    there it names the two table variables and no connection variable. An
    absent port or TLS mode is replaced by its default. *)
Theorem startup_halts_on_missing
    (env : gmap string string) (now : Z) (w : world) (v : string) :
  In v (connection_vars ++ table_vars) ->
  truthy (env !! v) = false ->
  exists ev,
    app' env now w = (Stopped, ev, w) /\
    ((exists c, In c connection_vars /\ truthy (env !! c) = false) ->
     (forall c, In c connection_vars -> named c ev) /\
     (forall t, In t table_vars -> ~ named t ev)) /\
    ((forall c, In c connection_vars -> truthy (env !! c) = true) ->
     (forall t, In t table_vars -> named t ev) /\
     (forall c, In c connection_vars -> ~ named c ev)) /\
    (env !! "DB_PORT" = None -> port (connection_settings env) = "5432") /\
    (env !! "DB_SSL_MODE" = None -> sslmode (connection_settings env) = "require").
Proof.
  intros Hin Hv.
  assert (Hdef : (env !! "DB_PORT" = None -> port (connection_settings env) = "5432") /\
                 (env !! "DB_SSL_MODE" = None ->
                  sslmode (connection_settings env) = "require")).
  { unfold connection_settings. cbn [port sslmode]. split; intros ->; reflexivity. }
  destruct (credentials_present env) eqn:Hc.
  - (* the connection values are there, so [v] is a table name *)
    apply in_app_or in Hin. destruct Hin as [Hin|Hin].
    { unfold credentials_present in Hc. rewrite (forallb_missing _ _ v Hin Hv) in Hc.
      discriminate. }
    pose proof (forallb_missing env table_vars v Hin Hv) as Ht.
    eexists. split; [exact (app_stops_on_tables env now w Hc Ht)|].
    split; [|split; [|exact Hdef]].
    + intros (c & Hcin & Hcv). unfold credentials_present in Hc.
      rewrite (forallb_missing _ _ c Hcin Hcv) in Hc. discriminate.
    + intros _. split.
      * intros t Htin. eexists. split.
        -- left. apply in_or_app. right. left. reflexivity.
        -- simpl in Htin. destruct Htin as [<-|[<-|[]]]; reflexivity.
      * intros c Hcin (s & Hs & Hcont). apply startup_notice in Hs.
        destruct Hs as [[Hs|[]]|[Hs|[]]]; [|discriminate Hs]. injection Hs as <-.
        simpl in Hcin. destruct Hcin as [<-|[<-|[<-|[<-|[]]]]];
          vm_compute in Hcont; discriminate Hcont.
  - eexists. split; [exact (app_stops_on_credentials env now w Hc)|].
    split; [|split; [|exact Hdef]].
    + intros _. split.
      * intros c Hcin. eexists. split.
        -- right. apply in_or_app. right. right. left. reflexivity.
        -- simpl in Hcin. destruct Hcin as [<-|[<-|[<-|[<-|[]]]]]; reflexivity.
      * intros t Htin (s & Hs & Hcont). apply startup_notice in Hs.
        destruct Hs as [[Hs|[Hs|[]]]|[Hs|[Hs|[]]]]; try discriminate Hs;
          injection Hs as <-;
          simpl in Htin; destruct Htin as [<-|[<-|[]]];
          vm_compute in Hcont; discriminate Hcont.
    + intros Hall. unfold credentials_present in Hc.
      assert (forallb (fun c => truthy (env !! c)) connection_vars = true)
        by (apply forallb_forall; exact Hall).
      congruence.
Qed.

End PageFacts.

(** ** Concrete runs *)


Lemma all_value_not_isolable_witness :
  get_loc "propertyType" (columns ex_all_typed) = Some 1 /\
  In (VText "All") (map (cell 1) (rows ex_all_typed)) /\
  filter_step "propertyType" (VText "All") ex_all_typed = Ok ex_all_typed.
Proof.
  assert (H1 : get_loc "propertyType" (columns ex_all_typed) = Some 1) by reflexivity.
  assert (H2 : In (VText "All") (map (cell 1) (rows ex_all_typed))) by (left; reflexivity).
  split; [exact H1|]. split; [exact H2|].
  exact (proj1 (all_value_not_isolable ex_all_typed "propertyType" 1 H1 H2)).
Defined.

Lemma cached_fetch_at_most_once_witness :
  queries_for ("Agent", 1000%Z)
    (snd (ex_fetch 299 "Agent" (run_calls ex_connect ex_query (connection_settings ex_env)
                                  [(5%Z, ("Property", 1000%Z))]
                                  (snd (ex_fetch 0 "Agent" ex_world)))))
  <= queries_for ("Agent", 1000%Z) ex_world + 1.
Proof.
  refine (proj1 (cached_fetch_at_most_once ex_connect ex_query (connection_settings ex_env)
                   "Agent" 1000 0 299 [(5%Z, ("Property", 1000%Z))]
                   ex_world (snd (ex_fetch 0 "Agent" ex_world)) _
                   (Done ex_agents) (Done ex_agents) [] [] _ _ _) _).
  - repeat constructor. discriminate.
  - reflexivity.
  - reflexivity.
  - reflexivity.
Defined.


Lemma empty_table_skips_merge_witness :
  main same_kind_keys null_makes_float ex_connect ex_query ex_choice ex_tabs
       (connection_settings ex_env) 0 "Agent" "Empty" ex_world
  = (Done tt,
     [] ++ [] ++
       [Warning "⚠️ No data returned from Property table.";
        Success "✅ Connected to database and fetched data.";
        Subheader "Agent Data";
        Dataframe ex_agents;
        Info "Property data is empty, cannot perform merge or property-related visualizations."],
     snd (ex_fetch 0 "Empty" (snd (ex_fetch 0 "Agent" ex_world)))).
Proof.
  refine (proj2 (proj2 (empty_table_skips_merge same_kind_keys null_makes_float ex_connect ex_query
                          ex_choice ex_tabs (connection_settings ex_env) 0 "Agent" "Empty"
                          ex_world (snd (ex_fetch 0 "Agent" ex_world)) _
                          ex_agents (Frame ["id"] []) [] [] _ _)) _ _);
    reflexivity.
Defined.

Lemma schema_mismatch_is_reported_witness :
  exists labels,
    merge_and_enrich same_kind_keys null_makes_float ex_properties ex_agents_short = Raise (KeyError labels) /\
    fst (main same_kind_keys null_makes_float ex_connect ex_query ex_choice ex_tabs
              (connection_settings ex_env) 0 "AgentShort" "Property" ex_world)
    = (Done tt,
       [Success "✅ Connected to database and fetched data.";
        Error ("❌ An unexpected error occurred: " +:+ exn_str (KeyError labels))]).
Proof.
  destruct (schema_mismatch_is_reported same_kind_keys null_makes_float ex_connect ex_query ex_choice ex_tabs
              (connection_settings ex_env) 0 "AgentShort" "Property"
              ex_world (snd (ex_fetch 0 "AgentShort" ex_world))
              (snd (ex_fetch 0 "Property" (snd (ex_fetch 0 "AgentShort" ex_world))))
              ex_agents_short ex_properties [] [])
    as (labels & Hmerge & Hmain).
  - reflexivity.
  - reflexivity.
  - reflexivity.
  - reflexivity.
  - right. exists "email". split; [simpl; tauto|].
    simpl. intros [H|[H|[]]]; discriminate H.
  - exists labels. split; [exact Hmerge|]. rewrite Hmain.
    assert (E : labels = ["email"; "phoneNumber"]).
    { assert (H : merge_and_enrich same_kind_keys null_makes_float ex_properties ex_agents_short
                  = Raise (KeyError ["email"; "phoneNumber"])) by reflexivity.
      rewrite H in Hmerge. now injection Hmerge as <-. }
    subst labels. reflexivity.
Defined.

Lemma startup_halts_on_missing_witness :
  exists ev,
    app same_kind_keys null_makes_float ex_connect ex_query ex_choice ex_tabs ex_env 0 ex_world
    = (Stopped, ev, ex_world) /\
    named "DB_TABLE_AGENT" ev /\ named "DB_TABLE_PROPERTY" ev /\ ~ named "DB_HOST" ev.
Proof.
  destruct (startup_halts_on_missing same_kind_keys null_makes_float ex_connect ex_query ex_choice ex_tabs
              ex_env 0 ex_world "DB_TABLE_PROPERTY")
    as (ev & Hrun & _ & Hnamed & _).
  - simpl. tauto.
  - reflexivity.
  - exists ev. split; [exact Hrun|].
    destruct Hnamed as [Ht Hc].
    + intros c Hc. simpl in Hc. destruct Hc as [<-|[<-|[<-|[<-|[]]]]]; reflexivity.
    + split; [apply Ht; left; reflexivity|].
      split; [apply Ht; right; left; reflexivity|].
      apply Hc. left. reflexivity.
Defined.

(** C9 as stated fails: with nothing set, the run stops at the check of
    the connection values, and no notice names the table variables, which
    are missing too. *)
Lemma startup_names_missing_counterexample :
  ~ (forall (env : gmap string string) (v : string),
        In v (connection_vars ++ table_vars) ->
        env !! v = None ->
        exists ev,
          app same_kind_keys null_makes_float ex_connect ex_query ex_choice ex_tabs env 0 ex_world
          = (Stopped, ev, ex_world) /\
          named v ev).
Proof.
  intros H.
  destruct (H ∅ "DB_TABLE_AGENT") as (ev & Hrun & s & Hin & Hs).
  - simpl. tauto.
  - reflexivity.
  - rewrite app_stops_on_credentials in Hrun by reflexivity.
    injection Hrun as <-.
    destruct Hin as [Hin|Hin]; simpl in Hin;
      repeat (destruct Hin as [Hin|Hin]; [try discriminate Hin|]); try contradiction;
      injection Hin as <-; vm_compute in Hs; discriminate Hs.
Qed.

(** * Further properties *)

(** ** Join-and-Enrich: when it fails, what it keeps *)

Section MergeMore.

Variable keys_mergeable : list value -> list value -> bool.
Variable keys_as_float : list value -> list value -> bool.

Lemma fillna_not_null (v x : value) : v <> VNull -> fillna v x <> VNull.
Proof. intros Hv. destruct x; simpl; congruence. Qed.

(** An enriched row is a property row followed by three non-null cells. *)
Lemma enriched_row_shape (property_df agent_df : frame) (l r : row) :
  In r (enriched_rows keys_as_float property_df agent_df l) ->
  exists xs, r = l ++ xs /\ length xs = 3 /\ Forall (fun x => x <> VNull) xs.
Proof.
  unfold enriched_rows.
  destruct (matching_agents keys_as_float property_df agent_df l) as [|r0 ms].
  - intros [<-|[]]. exists sentinels. split; [reflexivity|]. split; [reflexivity|].
    repeat constructor; discriminate.
  - intros H. apply in_map_iff in H. destruct H as (ar & <- & _).
    exists (agent_attrs agent_df ar). split; [reflexivity|]. split; [reflexivity|].
    unfold agent_attrs. cbn [map].
    repeat constructor; apply fillna_not_null; discriminate.
Qed.

Lemma attr_loc (property_df : frame) (t : string) (k : nat) :
  (forall t', In t' agent_attr_columns -> ~ In t' (columns property_df)) ->
  get_loc t agent_attr_columns = Some k ->
  get_loc t (columns property_df ++ agent_attr_columns)
  = Some (length (columns property_df) + k).
Proof.
  intros Hno Hk. rewrite get_loc_app_r, Hk; [reflexivity|].
  apply Hno. apply get_loc_Some in Hk. apply list_elem_of_In.
  eapply list_elem_of_lookup_2, Hk.
Qed.


(** X2. The first thing the merge step checks is the agent table: when
    it lacks some of the four labels the step raises [KeyError] with
    exactly the absent ones, in the order [id], [companyName], [email],
    [phoneNumber], whatever the property table holds. Only with all four
    there is the property table's [agentId] looked for, and then the dtype
    check made. *)
Theorem merge_missing_labels (property_df agent_df : frame) :
  (missing_agent_columns agent_df <> [] ->
   merge_and_enrich keys_mergeable keys_as_float property_df agent_df
   = Raise (KeyError (missing_agent_columns agent_df))) /\
  (missing_agent_columns agent_df = [] ->
   ~ In "agentId" (columns property_df) ->
   merge_and_enrich keys_mergeable keys_as_float property_df agent_df = Raise (KeyError ["agentId"])) /\
  (missing_agent_columns agent_df = [] ->
   In "agentId" (columns property_df) ->
   keys_mergeable (key_column "agentId" property_df) (key_column "id" agent_df) = false ->
   exists msg,
     merge_and_enrich keys_mergeable keys_as_float property_df agent_df = Raise (ValueError msg)).
Proof.
  unfold missing_agent_columns, merge_and_enrich, select_agent_columns, getitem_columns.
  split; [|split].
  - destruct (List.filter _ agent_cols_to_merge) as [|c0 rest]; [congruence|reflexivity].
  - intros Hnone Hkey. rewrite Hnone. cbn [result_bind]. unfold merge_left.
    apply get_loc_None in Hkey. now rewrite Hkey.
  - intros Hnone Hkey Hk.
    assert (Hloc : forall c, In c agent_cols_to_merge ->
                             exists j, get_loc c (columns agent_df) = Some j).
    { intros c Hc. destruct (get_loc c (columns agent_df)) as [j|] eqn:E; [eauto|].
      exfalso. assert (Hin : In c []); [|exact Hin]. rewrite <- Hnone.
      apply filter_In. split; [exact Hc|]. unfold has_column. now rewrite E. }
    destruct (Hloc "id") as [j0 H0]; [simpl; tauto|].
    destruct (Hloc "companyName") as [j1 H1]; [simpl; tauto|].
    destruct (Hloc "email") as [j2 H2]; [simpl; tauto|].
    destruct (Hloc "phoneNumber") as [j3 H3]; [simpl; tauto|].
    rewrite Hnone. unfold agent_cols_to_merge. cbn [omap list_omap]. rewrite H0, H1, H2, H3.
    cbn [result_bind]. unfold merge_left, rename. cbn [columns rows map].
    apply has_column_true in Hkey. unfold has_column in Hkey.
    destruct (get_loc "agentId" (columns property_df)) as [i|] eqn:Hi; [|discriminate].
    unfold key_column in Hk. rewrite Hi, H0 in Hk.
    change (get_loc "agentId" _) with (Some 0) at 1.
    cbn iota. rewrite map_map.
    change (fun x : row => cell 0 [cell j0 x; cell j1 x; cell j2 x; cell j3 x])
      with (cell j0).
    rewrite Hk. eexists. reflexivity.
Qed.

(** An agent attribute label the property table does not carry is a
    column of the merged frame. *)
Lemma free_label_stays (pcols : list string) (t : string) :
  In t agent_attr_columns -> ~ In t pcols ->
  get_loc t (map (suffix_overlap "agentId" ("agentId" :: agent_attr_columns) "_x") pcols
               ++ map (suffix_overlap "agentId" pcols "_y") agent_attr_columns) <> None.
Proof.
  intros Ht Hnin Hnone. apply get_loc_None in Hnone. apply Hnone.
  apply in_or_app. right. apply in_map_iff. exists t. split; [|exact Ht].
  unfold suffix_overlap.
  destruct (String.eqb_spec t "agentId") as [Heq|Hne]; [reflexivity|].
  destruct (existsb (String.eqb t) pcols) eqn:E; [|reflexivity].
  apply existsb_eqb_In in E. tauto.
Qed.

(** How the merge renames a property label: an agent attribute label
    gets the suffix, any other label stays. *)
Lemma suffix_x_cases (c : string) :
  (suffix_overlap "agentId" ("agentId" :: agent_attr_columns) "_x" c = c /\
   ~ In c agent_attr_columns) \/
  (In c agent_attr_columns /\
   suffix_overlap "agentId" ("agentId" :: agent_attr_columns) "_x" c = c +:+ "_x").
Proof.
  unfold suffix_overlap. destruct (String.eqb_spec c "agentId") as [Heq|Hne].
  - subst c. left. split; [reflexivity|]. simpl. intuition discriminate.
  - destruct (existsb (String.eqb c) ("agentId" :: agent_attr_columns)) eqn:E.
    + apply existsb_eqb_In in E. destruct E as [E|E]; [congruence|]. right. now split.
    + left. split; [reflexivity|]. intros H.
      assert (E' : existsb (String.eqb c) ("agentId" :: agent_attr_columns) = true)
        by (apply existsb_eqb_In; now right).
      congruence.
Qed.

(** When no property label is a suffixed agent attribute label already,
    the renaming keeps distinct property labels distinct. *)
Lemma suffix_x_inj (pcols : list string) (o o' : string) :
  (forall t, In t agent_attr_columns -> In t pcols -> ~ In (t +:+ "_x") pcols) ->
  In o pcols -> In o' pcols ->
  suffix_overlap "agentId" ("agentId" :: agent_attr_columns) "_x" o
  = suffix_overlap "agentId" ("agentId" :: agent_attr_columns) "_x" o' ->
  o = o'.
Proof.
  intros Hfree Ho Ho'.
  destruct (suffix_x_cases o) as [[-> Hn]|[Ha ->]],
           (suffix_x_cases o') as [[-> Hn']|[Ha' ->]]; intros E.
  - exact E.
  - exfalso. apply (Hfree o' Ha' Ho'). now rewrite <- E.
  - exfalso. apply (Hfree o Ha Ho). now rewrite E.
  - simpl in Ha, Ha'.
    destruct Ha as [<-|[<-|[<-|[]]]], Ha' as [<-|[<-|[<-|[]]]];
      first [reflexivity | discriminate E].
Qed.

Lemma suffix_duplicates_left (pcols : list string) :
  (forall t, In t agent_attr_columns -> In t pcols -> ~ In (t +:+ "_x") pcols) ->
  suffix_duplicates [] [] pcols
    (map (suffix_overlap "agentId" ("agentId" :: agent_attr_columns) "_x") pcols) = [].
Proof.
  intros Hfree.
  set (sx := suffix_overlap "agentId" ("agentId" :: agent_attr_columns) "_x").
  assert (H : forall l seen,
             (forall c, In c seen -> In c pcols) -> (forall c, In c l -> In c pcols) ->
             suffix_duplicates seen (map sx seen) l (map sx l) = []).
  { induction l as [|o os IH]; intros seen Hseen Hl; cbn [map suffix_duplicates];
      [reflexivity|].
    change (sx o :: map sx seen) with (map sx (o :: seen)).
    rewrite (IH (o :: seen)).
    - destruct (existsb (String.eqb (sx o)) (map sx seen)) eqn:E; [|reflexivity].
      apply existsb_eqb_In, in_map_iff in E. destruct E as (o' & E & Hin).
      assert (o' = o).
      { apply (suffix_x_inj pcols); [exact Hfree| now apply Hseen | apply Hl; now left | exact E]. }
      subst o'. apply existsb_eqb_In in Hin. now rewrite Hin.
    - intros c [<-|Hc]; [apply Hl; now left | now apply Hseen].
    - intros c Hc. apply Hl. now right. }
  apply (H pcols []); [intros c []|trivial].
Qed.

Lemma suffix_duplicates_right (pcols : list string) :
  suffix_duplicates [] [] agent_attr_columns
    (map (suffix_overlap "agentId" pcols "_y") agent_attr_columns) = [].
Proof.
  unfold agent_attr_columns, suffix_overlap. cbn [map].
  change (String.eqb "agent_companyName" "agentId") with false.
  change (String.eqb "agent_email" "agentId") with false.
  change (String.eqb "agent_phoneNumber" "agentId") with false.
  cbv iota.
  destruct (existsb (String.eqb "agent_companyName") pcols),
           (existsb (String.eqb "agent_email") pcols),
           (existsb (String.eqb "agent_phoneNumber") pcols); reflexivity.
Qed.

(** X3. A property table that already carries one of the columns
    [agent_companyName], [agent_email], [agent_phoneNumber] (and not that
    label with the suffix [_x] as well, which the merge itself refuses)
    makes the merge step raise [KeyError] for such a label, although every
    label the merge needs is there: the merge renames both copies, and the
    [fillna] assignment no longer finds the column. *)
Theorem merge_collision_raises (property_df agent_df : frame) :
  missing_agent_columns agent_df = [] ->
  In "agentId" (columns property_df) ->
  keys_mergeable (key_column "agentId" property_df) (key_column "id" agent_df) = true ->
  (exists t, In t agent_attr_columns /\ In t (columns property_df)) ->
  (forall t, In t agent_attr_columns -> In t (columns property_df) ->
             ~ In (t +:+ "_x") (columns property_df)) ->
  exists t,
    In t agent_attr_columns /\ In t (columns property_df) /\
    merge_and_enrich keys_mergeable keys_as_float property_df agent_df = Raise (KeyError [t]).
Proof.
  intros Hnone Hkey Hk Hcoll Hfree.
  assert (Hloc : forall c, In c agent_cols_to_merge ->
                           exists j, get_loc c (columns agent_df) = Some j).
  { intros c Hc. destruct (get_loc c (columns agent_df)) as [j|] eqn:E; [eauto|].
    exfalso. assert (Hin : In c []); [|exact Hin]. rewrite <- Hnone.
    apply filter_In. split; [exact Hc|]. unfold has_column. now rewrite E. }
  destruct (Hloc "id") as [j0 H0]; [simpl; tauto|].
  destruct (Hloc "companyName") as [j1 H1]; [simpl; tauto|].
  destruct (Hloc "email") as [j2 H2]; [simpl; tauto|].
  destruct (Hloc "phoneNumber") as [j3 H3]; [simpl; tauto|].
  apply has_column_true in Hkey. unfold has_column in Hkey.
  destruct (get_loc "agentId" (columns property_df)) as [i|] eqn:Hi; [|discriminate].
  unfold key_column in Hk. rewrite Hi, H0 in Hk.
  unfold merge_and_enrich.
  rewrite (select_agent_columns_ok agent_df j0 j1 j2 j3 H0 H1 H2 H3).
  cbn [result_bind]. unfold merge_left. cbn [columns rows]. rewrite Hi.
  change (get_loc "agentId" ("agentId" :: agent_attr_columns)) with (Some 0).
  cbn iota. rewrite map_map.
  change (fun x : row => cell 0 [cell j0 x; cell j1 x; cell j2 x; cell j3 x])
    with (cell j0).
  cbv zeta. rewrite Hk.
  change (delete 0 ("agentId" :: agent_attr_columns)) with agent_attr_columns.
  rewrite (suffix_duplicates_left _ Hfree), suffix_duplicates_right.
  change (@nil string ++ []) with (@nil string). cbv iota.
  cbn [result_bind]. unfold fill_sentinels, fillna_column. cbn [columns rows].
  set (pcols := columns property_df) in *.
  assert (Hdec : forall t, In t pcols \/ ~ In t pcols).
  { intros t. destruct (in_dec String.string_dec t pcols); tauto. }
  pose proof (collision_hides_label pcols) as Hhide.
  pose proof (free_label_stays pcols) as Hstay.
  destruct (Hdec "agent_companyName") as [Hc1|Hc1].
  { exists "agent_companyName". split; [simpl; tauto|]. split; [exact Hc1|].
    rewrite (Hhide "agent_companyName") by (simpl; tauto). reflexivity. }
  destruct (get_loc "agent_companyName" _) as [k1|] eqn:E1;
    [|exfalso; exact (Hstay "agent_companyName" ltac:(simpl; tauto) Hc1 E1)].
  cbn [result_bind columns rows].
  destruct (Hdec "agent_email") as [Hc2|Hc2].
  { exists "agent_email". split; [simpl; tauto|]. split; [exact Hc2|].
    rewrite (Hhide "agent_email") by (simpl; tauto). reflexivity. }
  destruct (get_loc "agent_email" _) as [k2|] eqn:E2;
    [|exfalso; exact (Hstay "agent_email" ltac:(simpl; tauto) Hc2 E2)].
  cbn [result_bind columns rows].
  destruct (Hdec "agent_phoneNumber") as [Hc3|Hc3].
  { exists "agent_phoneNumber". split; [simpl; tauto|]. split; [exact Hc3|].
    rewrite (Hhide "agent_phoneNumber") by (simpl; tauto). reflexivity. }
  exfalso. destruct Hcoll as (t & Ht & Hin). simpl in Ht.
  destruct Ht as [<-|[<-|[<-|[]]]]; tauto.
Qed.

(** X4. What the merge step returns is well formed: its columns are the
    property table's followed by the three agent attribute labels, every
    row has one cell per column, and no cell of the three agent columns is
    null. *)
Theorem enriched_frame_invariants (property_df agent_df m : frame) :
  well_formed property_df ->
  merge_and_enrich keys_mergeable keys_as_float property_df agent_df = Ok m ->
  columns m = columns property_df ++ agent_attr_columns /\
  well_formed m /\
  forall r t, In r (rows m) -> In t agent_attr_columns -> value_at m t r <> VNull.
Proof.
  intros Hwf Hm.
  destruct (merge_and_enrich_inv keys_mergeable keys_as_float _ _ _ Hwf Hm) as ((_ & _ & Hno & _) & ->).
  assert (Hrows : forall r, In r (rows (enriched keys_as_float property_df agent_df)) ->
            exists l xs, r = l ++ xs /\ length l = length (columns property_df) /\
                         length xs = 3 /\ Forall (fun x => x <> VNull) xs).
  { intros r Hr. unfold enriched in Hr. cbn [rows] in Hr.
    apply in_flat_map in Hr. destruct Hr as (l & Hl & Hr).
    destruct (enriched_row_shape _ _ _ _ Hr) as (xs & -> & Hlen & Hnn).
    exists l, xs. repeat split; try assumption.
    unfold well_formed in Hwf. rewrite Forall_forall in Hwf. apply Hwf.
    now apply list_elem_of_In. }
  split; [reflexivity|]. split.
  - unfold well_formed. apply Forall_forall. intros r Hr. apply list_elem_of_In in Hr.
    destruct (Hrows r Hr) as (l & xs & -> & Hl & Hx & _).
    unfold enriched. cbn [columns]. rewrite !length_app, Hl, Hx. reflexivity.
  - intros r t Hr Ht.
    destruct (Hrows r Hr) as (l & xs & -> & Hl & Hx & Hnn).
    destruct xs as [|x [|y [|z [|]]]]; try discriminate Hx.
    apply Forall_cons_1 in Hnn. destruct Hnn as [Hnx Hnn].
    apply Forall_cons_1 in Hnn. destruct Hnn as [Hny Hnn].
    apply Forall_cons_1 in Hnn. destruct Hnn as [Hnz _].
    unfold value_at, enriched. cbn [columns].
    simpl in Ht. destruct Ht as [<-|[<-|[<-|[]]]].
    + rewrite (attr_loc property_df "agent_companyName" 0 Hno eq_refl), <- Hl, cell_app_r.
      exact Hnx.
    + rewrite (attr_loc property_df "agent_email" 1 Hno eq_refl), <- Hl, cell_app_r.
      exact Hny.
    + rewrite (attr_loc property_df "agent_phoneNumber" 2 Hno eq_refl), <- Hl, cell_app_r.
      exact Hnz.
Qed.

(** X5. The merge step never drops, reorders or alters a property
    record: cut back to the property columns, the merged rows are the
    property rows in their order, each repeated once per matching agent row
    (once when none matches), and every property column reads in a merged
    row as it read in the property row it came from. *)
Theorem merge_keeps_property_rows (property_df agent_df m : frame) :
  well_formed property_df ->
  merge_and_enrich keys_mergeable keys_as_float property_df agent_df = Ok m ->
  map (property_part property_df) (rows m)
  = flat_map (fun l => replicate (Nat.max 1 (length (matching_agents keys_as_float property_df agent_df l))) l)
             (rows property_df) /\
  forall r c, In r (rows m) -> In c (columns property_df) ->
              In (property_part property_df r) (rows property_df) /\
              value_at m c r = value_at property_df c (property_part property_df r).
Proof.
  intros Hwf Hm.
  destruct (merge_and_enrich_inv keys_mergeable keys_as_float _ _ _ Hwf Hm) as (_ & ->).
  split; [exact (property_part_enriched keys_as_float _ _ Hwf)|].
  unfold enriched. cbn [rows columns].
  - intros r c Hr Hc. apply in_flat_map in Hr. destruct Hr as (l & Hl & Hr).
    assert (Hlen : length l = length (columns property_df)).
    { unfold well_formed in Hwf. rewrite Forall_forall in Hwf. apply Hwf.
      now apply list_elem_of_In. }
    destruct (enriched_rows_prefix _ _ _ _ _ Hr) as (xs & ->).
    unfold property_part. rewrite <- Hlen, take_app_length. split; [exact Hl|].
    unfold value_at. cbn [columns].
    destruct (get_loc c (columns property_df)) as [i|] eqn:Hi;
      [|apply get_loc_None in Hi; tauto].
    rewrite (get_loc_app_l _ _ _ _ Hi). apply cell_app_l.
    rewrite Hlen. eapply get_loc_lt, Hi.
Qed.


End MergeMore.

(** ** Filter Engine: options, idempotence, the null option *)

Section FilterMore.

Lemma key_match_eq (a b : value) : key_match a b = true <-> a = b.
Proof.
  destruct a as [s|m|], b as [t|n|]; simpl;
    try (split; [discriminate | congruence]); try tauto.
  - rewrite String.eqb_eq. split; congruence.
  - rewrite Z.eqb_eq. split; congruence.
Qed.

Lemma existsb_key_match (x : value) (seen : list value) :
  existsb (key_match x) seen = true <-> In x seen.
Proof.
  rewrite existsb_exists. split.
  - intros (y & Hy & Hm). apply key_match_eq in Hm. now subst.
  - intros Hin. exists x. split; [exact Hin | now apply key_match_eq].
Qed.

Lemma dedup_In (seen l : list value) (x : value) :
  In x (dedup seen l) <-> In x l /\ ~ In x seen.
Proof.
  revert seen. induction l as [|y l IH]; intros seen; simpl; [tauto|].
  destruct (existsb (key_match y) seen) eqn:E.
  - apply existsb_key_match in E. rewrite IH. split.
    + tauto.
    + intros [[->|Hin] Hns]; tauto.
  - assert (Hy : ~ In y seen).
    { intros H. apply existsb_key_match in H. congruence. }
    simpl. rewrite IH. simpl. split.
    + intros [<-|[Hin Hns]]; [tauto|]. split; [tauto|]. intros H. apply Hns. now right.
    + intros [[->|Hin] Hns]; [tauto|].
      destruct (key_match y x) eqn:Eyx.
      * apply key_match_eq in Eyx. tauto.
      * right. split; [exact Hin|]. intros [->|H]; [|tauto].
        assert (key_match x x = true) by now apply key_match_eq. congruence.
Qed.

Lemma dedup_NoDup (seen l : list value) : List.NoDup (dedup seen l).
Proof.
  revert seen. induction l as [|y l IH]; intros seen; simpl; [constructor|].
  destruct (existsb (key_match y) seen); [apply IH|].
  constructor; [|apply IH]. rewrite dedup_In. simpl. tauto.
Qed.

Lemma dedup_sublist (seen l : list value) : sublist (dedup seen l) l.
Proof.
  revert seen. induction l as [|y l IH]; intros seen; simpl; [constructor|].
  destruct (existsb (key_match y) seen).
  - apply sublist_cons, IH.
  - apply sublist_skip, IH.
Qed.

(** Where a value stands among the distinct values: the column splits
    at the value's first occurrence, and the distinct values before it are
    the values of the column before that occurrence. *)
Lemma dedup_first (seen l pre post : list value) (v : value) :
  dedup seen l = pre ++ v :: post ->
  exists before after,
    l = before ++ v :: after /\ ~ In v before /\ ~ In v seen /\
    forall u, In u pre <-> In u before /\ ~ In u seen.
Proof.
  revert seen pre. induction l as [|x l IH]; intros seen pre; simpl.
  - destruct pre; discriminate.
  - destruct (existsb (key_match x) seen) eqn:E.
    + apply existsb_key_match in E. intros H.
      destruct (IH _ _ H) as (before & after & -> & Hnb & Hns & Hpre).
      exists (x :: before), after. split; [reflexivity|]. split; [|split; [exact Hns|]].
      * intros [->|Hin]; tauto.
      * intros u. rewrite Hpre. simpl. split; [tauto|].
        intros [[->|Hin] Hn]; tauto.
    + assert (Hx : ~ In x seen).
      { intros H. apply existsb_key_match in H. congruence. }
      destruct pre as [|p pre]; simpl; intros [= <- H].
      * exists [], l. repeat split; tauto.
      * destruct (IH _ _ H) as (before & after & -> & Hnb & Hns & Hpre).
        simpl in Hns.
        exists (x :: before), after. split; [reflexivity|]. split; [|split].
        -- intros [->|Hin]; tauto.
        -- tauto.
        -- intros u. simpl. rewrite Hpre. simpl. split.
           ++ intros [->|[Hin Hn]]; tauto.
           ++ intros [[->|Hin] Hn]; [tauto|].
              destruct (key_match x u) eqn:Exu.
              ** apply key_match_eq in Exu. tauto.
              ** right. split; [exact Hin|]. intros [->|Hs]; [|tauto].
                 assert (key_match u u = true) by now apply key_match_eq.
                 congruence.
Qed.

(** X7. A select box offers ["All"] and then each distinct value of its
    column exactly once, in the order the values first appear: the offered
    values are pairwise distinct, they are the values of the column, and
    wherever a value stands among them the column splits at the first
    occurrence of that value, with the same values before it on both
    sides. For a column the frame does not have the box offers ["All"]
    alone. *)
Theorem filter_options_distinct (c : string) (df : frame) :
  (~ In c (columns df) -> filter_options c df = [VText "All"]) /\
  (forall i, get_loc c (columns df) = Some i ->
     exists values,
       filter_options c df = VText "All" :: values /\
       List.NoDup values /\
       sublist values (map (cell i) (rows df)) /\
       (forall v, In v values <-> In v (map (cell i) (rows df))) /\
       forall pre v post,
         values = pre ++ v :: post ->
         exists before after,
           map (cell i) (rows df) = before ++ v :: after /\
           ~ In v before /\
           forall u, In u pre <-> In u before).
Proof.
  unfold filter_options. split.
  - intros Hnin. apply get_loc_None in Hnin. now rewrite Hnin.
  - intros i ->. exists (unique i df). unfold unique.
    split; [reflexivity|]. split; [apply dedup_NoDup|]. split; [apply dedup_sublist|].
    split.
    + intros v. rewrite dedup_In. simpl. tauto.
    + intros pre v post H.
      destruct (dedup_first _ _ _ _ _ H) as (before & after & E & Hnb & _ & Hpre).
      exists before, after. split; [exact E|]. split; [exact Hnb|].
      intros u. rewrite Hpre. simpl. tauto.
Qed.

Lemma value_eqb_refl (v : value) : v <> VNull -> value_eqb v v = true.
Proof.
  destruct v as [s|n|]; simpl; intros H; [apply String.eqb_refl|apply Z.eqb_refl|congruence].
Qed.

(** What one filter statement returns, when it returns. *)
Lemma filter_step_inv (c : string) (selected : value) (df out : frame) :
  filter_step c selected df = Ok out ->
  (not_all selected = true -> In c (columns df)) /\
  out = Frame (columns df) (List.filter (constraint_holds df c selected) (rows df)).
Proof.
  unfold filter_step, constraint_holds, select_eq, value_at.
  destruct (not_all selected) eqn:Hna; simpl.
  - destruct (get_loc c (columns df)) as [i|] eqn:E; [|discriminate].
    intros [= <-]. split; [|reflexivity]. intros _.
    apply has_column_true. unfold has_column. now rewrite E.
  - intros [= <-]. split; [discriminate|]. rewrite filter_true. now destruct df.
Qed.

(** X8. Every option a select box offers besides ["All"] and the null
    value selects at least one row: filtering by it returns a frame with
    the same columns, at least one row, and only rows holding that value. *)
Theorem offered_option_selects_rows (c : string) (df : frame) (selected : value) :
  offered c df selected ->
  selected <> VText "All" ->
  selected <> VNull ->
  exists out,
    filter_step c selected df = Ok out /\
    columns out = columns df /\
    rows out <> [] /\
    forall r, In r (rows out) -> In r (rows df) /\ value_at df c r = selected.
Proof.
  intros Hoff Hall Hnull. unfold offered, filter_options in Hoff.
  destruct (get_loc c (columns df)) as [i|] eqn:Hi;
    [|destruct Hoff as [<-|[]]; congruence].
  destruct Hoff as [<-|Hin]; [congruence|].
  unfold unique in Hin. apply dedup_In in Hin. destruct Hin as [Hin _].
  apply in_map_iff in Hin. destruct Hin as (r0 & Hr0 & Hin0).
  assert (Hna : not_all selected = true).
  { unfold not_all. destruct (value_eqb selected (VText "All")) eqn:E; [|reflexivity].
    apply value_eqb_true in E. tauto. }
  unfold filter_step. rewrite Hna. unfold select_eq. rewrite Hi.
  eexists. split; [reflexivity|]. cbn [columns rows]. split; [reflexivity|]. split.
  - intros Hempty.
    assert (H : In r0 (List.filter (fun r => value_eqb (cell i r) selected) (rows df))).
    { apply filter_In. split; [exact Hin0|]. rewrite Hr0. now apply value_eqb_refl. }
    rewrite Hempty in H. exact H.
  - intros r Hr. apply filter_In in Hr. destruct Hr as [Hr Heq].
    split; [exact Hr|]. unfold value_at. rewrite Hi.
    apply value_eqb_true in Heq. tauto.
Qed.

(** X9. When a filter column holds a null cell the select box offers the
    null value, and choosing it selects no row at all, the rows with the
    null cell included: [==] against null is false everywhere. *)
Theorem null_option_selects_nothing (c : string) (df : frame) (i : nat) :
  get_loc c (columns df) = Some i ->
  In VNull (map (cell i) (rows df)) ->
  offered c df VNull /\
  filter_step c VNull df = Ok (Frame (columns df) []).
Proof.
  intros Hi Hnull. split.
  - unfold offered, filter_options. rewrite Hi. right. unfold unique.
    apply dedup_In. simpl. tauto.
  - unfold filter_step, select_eq. rewrite Hi. cbn [not_all value_eqb negb].
    f_equal. f_equal. apply filter_none. intros r _.
    destruct (cell i r); reflexivity.
Qed.

Lemma filter_idem {A : Type} (f : A -> bool) (l : list A) :
  List.filter f (List.filter f l) = List.filter f l.
Proof.
  rewrite filter_filter. apply filter_ext. intros x. now destruct (f x).
Qed.

(** X10. Filtering is idempotent: a frame the three filter statements
    returned is returned unchanged when they are applied to it again with
    the same selection. *)
Theorem filter_idempotent (df out : frame) (s_type s_city s_company : value) :
  apply_filters df s_type s_city s_company = Ok out ->
  apply_filters out s_type s_city s_company = Ok out.
Proof.
  unfold apply_filters.
  destruct (filter_step "propertyType" s_type df) as [d1|] eqn:E1; [|discriminate].
  cbn [result_bind].
  destruct (filter_step "city" s_city d1) as [d2|] eqn:E2; [|discriminate].
  cbn [result_bind]. intros E3.
  apply filter_step_inv in E1. destruct E1 as [H1 ->].
  apply filter_step_inv in E2. cbn [columns rows] in E2. destruct E2 as [H2 ->].
  apply filter_step_inv in E3. cbn [columns rows] in E3. destruct E3 as [H3 ->].
  set (f1 := constraint_holds df "propertyType" s_type).
  set (f2 := constraint_holds _ "city" s_city) in *.
  set (f3 := constraint_holds _ "agent_companyName" s_company) in *.
  pose proof (fun c s H rs' => filter_step_spec c s df rs' H) as Hstep.
  rewrite (Hstep "propertyType" s_type H1). cbn [result_bind].
  rewrite (Hstep "city" s_city H2). cbn [result_bind].
  rewrite (Hstep "agent_companyName" s_company H3).
  do 2 f_equal.
  assert (E2 : f2 = constraint_holds df "city" s_city) by reflexivity.
  assert (E3 : f3 = constraint_holds df "agent_companyName" s_company) by reflexivity.
  rewrite <- E2, <- E3. fold f1.
  rewrite !filter_filter. apply filter_ext. intros r.
  destruct (f1 r), (f2 r), (f3 r); reflexivity.
Qed.

End FilterMore.

(** ** Table Fetcher and cache: failures, expiry, footprint *)

Section CacheMore.

Variable connect_answer : nat -> option string.
Variable query_answer : nat -> string -> Z -> string + frame.

Abbreviation fetch_body := (fetch_data connect_answer query_answer).
Abbreviation fetch_cached := (fetch_data_cached connect_answer query_answer).

(** X11. A failed fetch is cached like a successful one. After a miss
    whose connection or query failed, a fetch of the same table within the
    [ttl] does not go back to the database: it returns the empty frame
    again, replays the stored error notice and leaves the world as it is. *)
Theorem failed_fetch_is_cached
    (settings : conninfo) (table_name : string) (limit : Z) (t1 t2 : Z)
    (w : world) (msg : string) :
  cache w !! (table_name, limit) = None ->
  (connect_answer (length (attempts w)) = Some msg \/
   (connect_answer (length (attempts w)) = None /\
    query_answer (length (attempts w)) table_name limit = inl msg)) ->
  (t2 < t1 + ttl)%Z ->
  exists w1,
    fetch_cached settings t1 table_name limit w
    = (Done empty_frame, [fetch_error_notice table_name msg], w1) /\
    attempts w1 = attempts w ++ [settings] /\
    fetch_cached settings t2 table_name limit w1
    = (Done empty_frame, [fetch_error_notice table_name msg], w1).
Proof.
  intros Hnone Hfail Ht.
  assert (Hbody : exists wb,
            fetch_body settings table_name limit w
            = (Done empty_frame, [fetch_error_notice table_name msg], wb) /\
            attempts wb = attempts w ++ [settings] /\ cache wb = cache w).
  { rewrite fetch_data_run. cbv zeta.
    destruct Hfail as [Hc | [Hc Hq]]; rewrite Hc; [|rewrite Hq];
      eexists; (split; [reflexivity|]); split; reflexivity. }
  destruct Hbody as (wb & Hrun & Hatt & Hcache).
  unfold fetch_data_cached, cache_data at 1. rewrite Hnone.
  unfold run_and_store. rewrite Hrun.
  eexists. split; [reflexivity|]. cbn [attempts]. split; [exact Hatt|].
  unfold cache_data. cbn [cache]. rewrite lookup_insert_eq.
  unfold fresh. cbn [stored_at cached_frame cached_elements].
  now rewrite (proj2 (Z.ltb_lt _ _) Ht).
Qed.

(** X12. An entry as old as the [ttl] or older is not used: the body
    runs again with one new connection attempt, what it returns is what the
    fetch returns, and the entry is replaced by the new result with the
    time of this call. *)
Theorem stale_entry_is_refetched
    (settings : conninfo) (table_name : string) (limit : Z) (now : Z)
    (w : world) (e : cache_entry) :
  cache w !! (table_name, limit) = Some e ->
  (stored_at e + ttl <= now)%Z ->
  exists df ev w',
    fetch_cached settings now table_name limit w = (Done df, ev, w') /\
    fetch_body settings table_name limit w
    = (Done df, ev, World (attempts w') (live w') (issued w') (cache w)) /\
    attempts w' = attempts w ++ [settings] /\
    cache w' = <[(table_name, limit) := CacheEntry df ev now]> (cache w).
Proof.
  intros He Hold.
  unfold fetch_data_cached, cache_data. rewrite He. unfold fresh.
  rewrite (proj2 (Z.ltb_ge _ _) Hold). unfold run_and_store.
  rewrite fetch_data_run. cbv zeta.
  destruct (connect_answer (length (attempts w))) as [msg|];
    [|destruct (query_answer (length (attempts w)) table_name limit) as [msg|df]];
    eexists _, _, _; (split; [reflexivity|]); cbn [attempts live issued cache];
    repeat split; reflexivity.
Qed.

(** What a cached fetch does to the world. *)
Lemma cached_fetch_effect (settings : conninfo) (now : Z) (table_name : string)
    (limit : Z) (w : world) :
  exists df ev w' k qs,
    fetch_cached settings now table_name limit w = (Done df, ev, w') /\
    k <= 1 /\
    attempts w' = attempts w ++ replicate k settings /\
    issued w' = issued w ++ qs /\
    length qs <= k /\
    Forall (fun q => q = (table_name, limit)) qs /\
    (live_bounded w -> live w' = live w).
Proof.
  assert (Hmiss : exists df ev w' k qs,
            run_and_store now (table_name, limit)
              (fetch_body settings table_name limit) w = (Done df, ev, w') /\
            k <= 1 /\
            attempts w' = attempts w ++ replicate k settings /\
            issued w' = issued w ++ qs /\
            length qs <= k /\
            Forall (fun q => q = (table_name, limit)) qs /\
            (live_bounded w -> live w' = live w)).
  { unfold run_and_store. rewrite fetch_data_run. cbv zeta.
    destruct (connect_answer (length (attempts w))) as [msg|];
      [|destruct (query_answer (length (attempts w)) table_name limit) as [msg|df]].
    - eexists _, _, _, 1, []. split; [reflexivity|]. cbn [attempts live issued cache].
      rewrite app_nil_r. repeat split; auto.
    - eexists _, _, _, 1, [_]. split; [reflexivity|]. cbn [attempts live issued cache].
      repeat split; auto. intros Hb. now apply filter_bounded.
    - eexists _, _, _, 1, [_]. split; [reflexivity|]. cbn [attempts live issued cache].
      repeat split; auto. intros Hb. now apply filter_bounded. }
  unfold fetch_data_cached, cache_data.
  destruct (cache w !! (table_name, limit)) as [e|]; [|exact Hmiss].
  destruct (fresh now e); [|exact Hmiss].
  eexists _, _, _, 0, []. split; [reflexivity|]. cbn [replicate].
  rewrite !app_nil_r. repeat split; auto.
Qed.

End CacheMore.

(** ** The page: what a run does to the world, reruns, a database that is down *)

Section PageMore.

Variable keys_mergeable : list value -> list value -> bool.
Variable keys_as_float : list value -> list value -> bool.
Variable connect_answer : nat -> option string.
Variable query_answer : nat -> string -> Z -> string + frame.
Variable user_choice : string -> nat.
Variable render_tabs : frame -> frame -> frame -> frame -> list ui_event * option exn.

Abbreviation fetch_at := (fetch_data_cached connect_answer query_answer).
Abbreviation the_pipeline := (pipeline keys_mergeable keys_as_float user_choice render_tabs).
Abbreviation the_main :=
  (main keys_mergeable keys_as_float connect_answer query_answer user_choice render_tabs).
Abbreviation the_app :=
  (app keys_mergeable keys_as_float connect_answer query_answer user_choice render_tabs).

Lemma keeps_ret {S A : Type} (a : A) : keeps_state (@ret S A a).
Proof. intros s. reflexivity. Qed.

Lemma keeps_emit {S : Type} (e : ui_event) : keeps_state (@emit S e).
Proof. intros s. reflexivity. Qed.

Lemma keeps_stop {S A : Type} : keeps_state (@st_stop S A).
Proof. intros s. reflexivity. Qed.

Lemma keeps_lift_result {S A : Type} (x : result A) : keeps_state (@lift_result S A x).
Proof. intros s. destruct x; reflexivity. Qed.

Lemma keeps_bind {S A B : Type} (m : M S A) (k : A -> M S B) :
  keeps_state m -> (forall a, keeps_state (k a)) -> keeps_state (bind m k).
Proof.
  intros Hm Hk s. unfold bind. specialize (Hm s).
  destruct (m s) as [[[a|e|] ev] s1]; cbn [snd] in Hm |- *; subst s1; try reflexivity.
  specialize (Hk a s). destruct (k a s) as [[r ev2] s2]. exact Hk.
Qed.

Lemma keeps_try_except {S A : Type} (m : M S A) (h : exn -> M S A) :
  keeps_state m -> (forall e, keeps_state (h e)) -> keeps_state (try_except m h).
Proof.
  intros Hm Hh s. unfold try_except. specialize (Hm s).
  destruct (m s) as [[[a|e|] ev] s1]; cbn [snd] in Hm |- *; subst s1; try reflexivity.
  specialize (Hh e s). destruct (h e s) as [[r ev2] s2]. exact Hh.
Qed.

Lemma keeps_st_tabs (f a p m : frame) : keeps_state (st_tabs render_tabs f a p m).
Proof. intros s. unfold st_tabs. destruct (render_tabs f a p m) as [ev [e|]]; reflexivity. Qed.

Ltac keeps :=
  repeat first
    [ apply keeps_ret | apply keeps_emit | apply keeps_stop | apply keeps_lift_result
    | apply keeps_st_tabs
    | apply keeps_bind; [|intros]
    | match goal with |- keeps_state (if ?b then _ else _) => destruct b end ].

(** The page below the two fetches never touches the world. *)
Lemma pipeline_keeps_world (agent_df property_df : frame) :
  keeps_state (the_pipeline agent_df property_df).
Proof. unfold pipeline, st_selectbox. keeps. Qed.

Lemma on_unexpected_keeps_world (e : exn) : keeps_state (@on_unexpected e).
Proof. unfold on_unexpected. keeps. Qed.

(** A run of the page's [try] block in terms of its two fetches. *)
Lemma main_effect (settings : conninfo) (now : Z) (agent_table property_table : string)
    (w : world) :
  exists agent_df property_df eva evp wa wp r ev,
    fetch_at settings now agent_table 1000 w = (Done agent_df, eva, wa) /\
    fetch_at settings now property_table 1000 wa = (Done property_df, evp, wp) /\
    try_except (the_pipeline agent_df property_df) on_unexpected wp = (r, ev, wp) /\
    the_main settings now agent_table property_table w = (r, eva ++ evp ++ ev, wp).
Proof.
  destruct (cached_fetch_done connect_answer query_answer settings now agent_table 1000 w)
    as (a & eva & wa & Ha).
  destruct (cached_fetch_done connect_answer query_answer settings now property_table 1000 wa)
    as (p & evp & wp & Hp).
  pose proof (keeps_try_except _ _ (pipeline_keeps_world a p) on_unexpected_keeps_world wp)
    as Hkeep.
  destruct (try_except (the_pipeline a p) on_unexpected wp) as [[r ev] w'] eqn:Hrun.
  cbn [snd] in Hkeep. subst w'.
  exists a, p, eva, evp, wa, wp, r, ev. repeat split; try assumption.
  rewrite (main_run keys_mergeable keys_as_float connect_answer query_answer user_choice render_tabs
             _ _ _ _ _ _ _ _ _ _ _ Ha Hp).
  now rewrite Hrun.
Qed.

(** X13. What one run of the page does to the database: at most two
    connection attempts, each with the settings read from the environment;
    at most one query per attempt, each for at most 1000 rows of the agent
    table or of the property table; and no connection left open. *)
Theorem app_database_footprint (env : gmap string string) (now : Z) (w : world) :
  exists k qs,
    k <= 2 /\
    attempts (snd (the_app env now w))
    = attempts w ++ replicate k (connection_settings env) /\
    issued (snd (the_app env now w)) = issued w ++ qs /\
    length qs <= k /\
    Forall (fun q => q = agent_key env \/ q = property_key env) qs /\
    (live_bounded w ->
     live (snd (the_app env now w)) = live w /\ live_bounded (snd (the_app env now w))).
Proof.
  assert (Hsame : snd (the_app env now w) = w ->
            exists k qs, k <= 2 /\
              attempts (snd (the_app env now w))
              = attempts w ++ replicate k (connection_settings env) /\
              issued (snd (the_app env now w)) = issued w ++ qs /\
              length qs <= k /\
              Forall (fun q => q = agent_key env \/ q = property_key env) qs /\
              (live_bounded w ->
               live (snd (the_app env now w)) = live w /\
               live_bounded (snd (the_app env now w)))).
  { intros ->. exists 0, []. cbn [replicate]. rewrite !app_nil_r. repeat split; auto. }
  destruct (credentials_present env) eqn:Hc;
    [|apply Hsame; now rewrite app_stops_on_credentials].
  destruct (tables_present env) eqn:Ht;
    [|apply Hsame; now rewrite app_stops_on_tables].
  clear Hsame. rewrite app_proceeds by assumption.
  set (settings := connection_settings env).
  set (ta := py_str (env !! "DB_TABLE_AGENT")).
  set (tp := py_str (env !! "DB_TABLE_PROPERTY")).
  destruct (main_effect settings now ta tp w)
    as (a & p & eva & evp & wa & wp & r & ev & Ha & Hp & _ & ->).
  cbn [snd].
  destruct (cached_fetch_effect connect_answer query_answer settings now ta 1000 w)
    as (a' & eva' & wa' & k1 & q1 & Ha' & Hk1 & Hat1 & Hq1 & Hl1 & Hf1 & Hlive1).
  rewrite Ha in Ha'. injection Ha' as <- <- <-.
  destruct (cached_fetch_effect connect_answer query_answer settings now tp 1000 wa)
    as (p' & evp' & wp' & k2 & q2 & Hp' & Hk2 & Hat2 & Hq2 & Hl2 & Hf2 & Hlive2).
  rewrite Hp in Hp'. injection Hp' as <- <- <-.
  exists (k1 + k2), (q1 ++ q2). split; [lia|]. split.
  { rewrite Hat2, Hat1, <- app_assoc. f_equal. symmetry. apply replicate_add. }
  split; [now rewrite Hq2, Hq1, <- app_assoc|].
  split; [rewrite length_app; lia|]. split.
  { apply Forall_app. split.
    - eapply List.Forall_impl; [|exact Hf1]. intros q ->. now left.
    - eapply List.Forall_impl; [|exact Hf2]. intros q ->. now right. }
  intros Hb.
  assert (Hba : live_bounded wa).
  { unfold live_bounded in *. rewrite (Hlive1 Hb), Hat1, length_app.
    eapply List.Forall_impl; [|exact Hb]. intros c Hc'. simpl in Hc'. lia. }
  split; [now rewrite (Hlive2 Hba), (Hlive1 Hb)|].
  unfold live_bounded in *. rewrite (Hlive2 Hba), Hat2, length_app.
  eapply List.Forall_impl; [|exact Hba]. intros c Hc'. simpl in Hc'. lia.
Qed.

Lemma fetch_miss (settings : conninfo) (now : Z) (table_name : string) (limit : Z)
    (w : world) :
  cache w !! (table_name, limit) = None ->
  exists df ev w',
    fetch_at settings now table_name limit w = (Done df, ev, w') /\
    fetch_data connect_answer query_answer settings table_name limit w
    = (Done df, ev, World (attempts w') (live w') (issued w') (cache w)) /\
    cache w' = <[(table_name, limit) := CacheEntry df ev now]> (cache w).
Proof.
  intros Hnone. unfold fetch_data_cached, cache_data. rewrite Hnone.
  unfold run_and_store. rewrite fetch_data_run. cbv zeta.
  destruct (connect_answer (length (attempts w))) as [msg|];
    [|destruct (query_answer (length (attempts w)) table_name limit) as [msg|df]];
    eexists _, _, _; (split; [reflexivity|]); cbn [attempts live issued cache];
    split; reflexivity.
Qed.

Lemma fetch_hit (settings : conninfo) (now : Z) (table_name : string) (limit : Z)
    (w : world) (e : cache_entry) :
  cache w !! (table_name, limit) = Some e ->
  (now < stored_at e + ttl)%Z ->
  fetch_at settings now table_name limit w = (Done (cached_frame e), cached_elements e, w).
Proof.
  intros He Ht. unfold fetch_data_cached, cache_data. rewrite He. unfold fresh.
  now rewrite (proj2 (Z.ltb_lt _ _) Ht).
Qed.

(** The two fetches of a run that starts without entries for its keys,
    and the same two fetches less than [ttl] later. *)
Lemma fetches_repeat (settings : conninfo) (t1 t2 : Z) (ta tp : string) (w : world) :
  cache w !! (ta, 1000%Z) = None ->
  cache w !! (tp, 1000%Z) = None ->
  (t2 < t1 + ttl)%Z ->
  exists a p eva evp wa wp,
    fetch_at settings t1 ta 1000 w = (Done a, eva, wa) /\
    fetch_at settings t1 tp 1000 wa = (Done p, evp, wp) /\
    fetch_at settings t2 ta 1000 wp = (Done a, eva, wp) /\
    fetch_at settings t2 tp 1000 wp = (Done p, evp, wp).
Proof.
  intros Hna Hnp Ht.
  assert (Httl : (t1 < t1 + ttl)%Z) by (unfold ttl; lia).
  destruct (fetch_miss settings t1 ta 1000 w Hna) as (a & eva & wa & Ha & _ & Hca).
  assert (Hea : cache wa !! (ta, 1000%Z) = Some (CacheEntry a eva t1))
    by (rewrite Hca; apply lookup_insert_eq).
  destruct (decide (tp = ta)) as [->|Hne].
  - exists a, a, eva, eva, wa, wa. split; [exact Ha|].
    split; [exact (fetch_hit settings t1 ta 1000 wa _ Hea Httl)|].
    split; exact (fetch_hit settings t2 ta 1000 wa _ Hea Ht).
  - assert (Hnp' : cache wa !! (tp, 1000%Z) = None).
    { rewrite Hca, lookup_insert_ne; [exact Hnp | congruence]. }
    destruct (fetch_miss settings t1 tp 1000 wa Hnp') as (p & evp & wp & Hp & _ & Hcp).
    assert (Hep : cache wp !! (tp, 1000%Z) = Some (CacheEntry p evp t1))
      by (rewrite Hcp; apply lookup_insert_eq).
    assert (Hea' : cache wp !! (ta, 1000%Z) = Some (CacheEntry a eva t1)).
    { rewrite Hcp, lookup_insert_ne; [exact Hea | congruence]. }
    exists a, p, eva, evp, wa, wp. split; [exact Ha|]. split; [exact Hp|].
    split; [exact (fetch_hit settings t2 ta 1000 wp _ Hea' Ht)
           | exact (fetch_hit settings t2 tp 1000 wp _ Hep Ht)].
Qed.

(** X14. A rerun within the [ttl] repeats the page. When a run starts
    with no cache entry for its two tables, running the page again from
    the world it left, less than [ttl] seconds after, ends the same way
    with the same elements, notices of failed fetches included, and
    changes nothing: the database is not contacted. *)
Theorem rerun_within_ttl_repeats_page
    (env : gmap string string) (t1 t2 : Z) (w w1 : world)
    (r : outcome unit) (ev : list ui_event) :
  cache w !! agent_key env = None ->
  cache w !! property_key env = None ->
  (t2 < t1 + ttl)%Z ->
  the_app env t1 w = (r, ev, w1) ->
  the_app env t2 w1 = (r, ev, w1).
Proof.
  intros Hna Hnp Ht Hrun.
  destruct (credentials_present env) eqn:Hc.
  2:{ rewrite app_stops_on_credentials in Hrun |- * by exact Hc.
      injection Hrun as <- <- <-. reflexivity. }
  destruct (tables_present env) eqn:Htab.
  2:{ rewrite app_stops_on_tables in Hrun |- * by assumption.
      injection Hrun as <- <- <-. reflexivity. }
  rewrite app_proceeds in Hrun |- * by assumption.
  destruct (fetches_repeat (connection_settings env) t1 t2 _ _ w Hna Hnp Ht)
    as (a & p & eva & evp & wa & wp & Ha1 & Hp1 & Ha2 & Hp2).
  pose proof (keeps_try_except _ _ (pipeline_keeps_world a p) on_unexpected_keeps_world wp)
    as Hkeep.
  rewrite (main_run keys_mergeable keys_as_float connect_answer query_answer user_choice render_tabs
             _ _ _ _ _ _ _ _ _ _ _ Ha1 Hp1) in Hrun.
  destruct (try_except (the_pipeline a p) on_unexpected wp) as [[r' ev'] w'] eqn:Hpipe.
  cbn [snd] in Hkeep. subst w'. injection Hrun as <- <- <-.
  rewrite (main_run keys_mergeable keys_as_float connect_answer query_answer user_choice render_tabs
             _ _ _ _ _ _ _ _ _ _ _ Ha2 Hp2).
  rewrite Hpipe. reflexivity.
Qed.

(** X15. A database that refuses every connection. With the
    configuration complete and nothing cached, the page shows one fetch
    error per table and the warning that neither table returned data, then
    stops. The exception never reaches the page's handler, so the hint
    about the TLS mode is not shown, whatever the refusal says. *)
Theorem database_down_page (env : gmap string string) (now : Z) (w : world) (msg : string) :
  (forall n, connect_answer n = Some msg) ->
  credentials_present env = true ->
  tables_present env = true ->
  cache w !! agent_key env = None ->
  cache w !! property_key env = None ->
  exists w',
    the_app env now w
    = (Stopped,
       startup_elements env ++
         [fetch_error_notice (py_str (env !! "DB_TABLE_AGENT")) msg;
          fetch_error_notice (py_str (env !! "DB_TABLE_PROPERTY")) msg;
          Warning "⚠️ No data returned from either Agent or Property tables."],
       w') /\
    issued w' = issued w /\ live w' = live w.
Proof.
  intros Hdown Hc Htab Hna Hnp.
  assert (Httl : (now < now + ttl)%Z) by (unfold ttl; lia).
  rewrite app_proceeds by assumption.
  set (settings := connection_settings env).
  set (ta := py_str (env !! "DB_TABLE_AGENT")) in *.
  set (tp := py_str (env !! "DB_TABLE_PROPERTY")) in *.
  assert (Hbody : forall t w0,
            fetch_data connect_answer query_answer settings t 1000 w0
            = (Done empty_frame, [fetch_error_notice t msg],
               World (attempts w0 ++ [settings]) (live w0) (issued w0) (cache w0))).
  { intros t w0. rewrite fetch_data_run. cbv zeta. now rewrite Hdown. }
  destruct (fetch_miss settings now ta 1000 w Hna) as (a & eva & wa & Ha & Hba & Hca).
  rewrite Hbody in Hba. injection Hba as <- <- Hatt Hlive Hiss.
  assert (Hsecond : exists wp,
            fetch_at settings now tp 1000 wa
            = (Done empty_frame, [fetch_error_notice tp msg], wp) /\
            issued wp = issued w /\ live wp = live w).
  { destruct (decide (tp = ta)) as [Heq|Hne].
    - exists wa. rewrite Heq. split; [|split; congruence].
      apply (fetch_hit settings now ta 1000 wa (CacheEntry empty_frame _ now));
        [rewrite Hca; apply lookup_insert_eq | exact Httl].
    - assert (Hnp' : cache wa !! (tp, 1000%Z) = None).
      { rewrite Hca, lookup_insert_ne; [exact Hnp | congruence]. }
      destruct (fetch_miss settings now tp 1000 wa Hnp') as (p & evp & wp & Hp & Hbp & _).
      rewrite Hbody in Hbp. injection Hbp as <- <- _ Hlive' Hiss'.
      exists wp. split; [exact Hp|]. split; congruence. }
  destruct Hsecond as (wp & Hp & Hiss' & Hlive').
  exists wp. split; [|split; assumption].
  rewrite (main_run keys_mergeable keys_as_float connect_answer query_answer user_choice render_tabs
             _ _ _ _ _ _ _ _ _ _ _ Ha Hp).
  reflexivity.
Qed.

Lemma selectbox_first (label c : string) (df : frame) :
  user_choice label = 0 ->
  selectbox_value user_choice label (filter_options c df) = VText "All".
Proof.
  intros H. unfold selectbox_value, filter_options. rewrite H.
  destruct (get_loc c (columns df)); reflexivity.
Qed.

Lemma filter_all_rows (df : frame) :
  Frame (columns df)
        (List.filter (row_selected df (VText "All") (VText "All") (VText "All")) (rows df))
  = df.
Proof.
  rewrite (filter_ext _ (fun _ => true)) by reflexivity.
  rewrite filter_true. now destruct df.
Qed.

(** X16. The page as it first loads. With every select box at its first
    option, and the merge done, the page shows the head of the merged
    frame, the three select boxes, and then the whole merged frame as the
    filtered data, with its full row count in the heading. *)
Theorem untouched_boxes_show_all (agent_df property_df m : frame) (w : world) :
  (forall label, user_choice label = 0) ->
  frame_empty agent_df = false ->
  frame_empty property_df = false ->
  merge_and_enrich keys_mergeable keys_as_float property_df agent_df = Ok m ->
  the_pipeline agent_df property_df w
  = (match snd (render_tabs m agent_df property_df m) with
     | Some e => Raised e
     | None => Done tt
     end,
     [Success "✅ Connected to database and fetched data.";
      Subheader "Combined Property and Agent Data";
      Dataframe (head_frame m);
      SidebarHeader "Filters";
      Selectbox "Select Property Type" (filter_options "propertyType" m);
      Selectbox "Select City" (filter_options "city" m);
      Selectbox "Select Agent Company" (filter_options "agent_companyName" m);
      Subheader ("Filtered Data (" +:+ pretty (frame_len m) +:+ " rows)");
      Dataframe m] ++ fst (render_tabs m agent_df property_df m),
     w).
Proof.
  intros Hfirst Ea Ep Hm.
  rewrite (pipeline_shows_filtered keys_mergeable keys_as_float user_choice render_tabs _ _ _ w Ea Ep Hm).
  cbv zeta. rewrite !selectbox_first by apply Hfirst.
  rewrite filter_all_rows. reflexivity.
Qed.

(** X17. A filter statement raises only for a selection other than
    ["All"] on a column the frame does not have, and then [KeyError] for
    that column. The values the page's three select boxes return never
    lead there, whatever the user picks. *)
Theorem filter_raises_only_outside_options (m : frame) :
  (forall c selected e,
      filter_step c selected m = Raise e <->
      not_all selected = true /\ ~ In c (columns m) /\ e = KeyError [c]) /\
  exists out,
    apply_filters m
      (selectbox_value user_choice "Select Property Type" (filter_options "propertyType" m))
      (selectbox_value user_choice "Select City" (filter_options "city" m))
      (selectbox_value user_choice "Select Agent Company"
                       (filter_options "agent_companyName" m))
    = Ok out.
Proof.
  split.
  - intros c selected e. unfold filter_step, select_eq.
    destruct (not_all selected).
    + destruct (get_loc c (columns m)) as [i|] eqn:E.
      * split; [discriminate|]. intros (_ & Hnin & _). apply get_loc_None in Hnin. congruence.
      * apply get_loc_None in E. split; [intros [= <-]; auto | intros (_ & _ & ->); reflexivity].
    + split; [discriminate | intros (H & _); discriminate].
  - unfold apply_filters. destruct m as [cols rs].
    pose proof (fun label c rs' =>
                  filter_step_spec c _ (Frame cols rs) rs'
                    (offered_column c (Frame cols rs) _
                       (selectbox_offered user_choice label c (Frame cols rs)))) as Hstep.
    cbn [columns] in Hstep.
    rewrite (Hstep "Select Property Type" "propertyType"). cbn [result_bind].
    rewrite (Hstep "Select City" "city"). cbn [result_bind].
    rewrite (Hstep "Select Agent Company" "agent_companyName").
    eexists. reflexivity.
Qed.


End PageMore.

(** ** The tabs: empty selections, failing charts, unchecked columns *)

Section TabsFacts.

Variable plot : figure -> frame -> option exn.

Lemma tab_outcome_emit (f : frame) (ok : figure -> Prop) (hdr e : ui_event) :
  e <> hdr -> tab_outcome plot f ok hdr (emit e).
Proof. intros Hne. unfold tab_outcome, emit. intros [H|[]]. congruence. Qed.

Lemma tab_outcome_draw (f : frame) (ok : figure -> Prop) (hdr : ui_event)
    (fig : figure) (title : string) :
  ok fig -> Chart title f <> hdr -> tab_outcome plot f ok hdr (draw plot fig title f).
Proof.
  intros Hok Hne. unfold tab_outcome, draw.
  destruct (plot fig f) as [e|] eqn:E; cbn.
  - split; [tauto | eauto].
  - intros [H|[]]. congruence.
Qed.

Lemma tab_outcome_bind (f : frame) (ok : figure -> Prop) (hdr : ui_event)
    (m : M unit unit) (k : unit -> M unit unit) :
  tab_outcome plot f ok hdr m ->
  (forall u, tab_outcome plot f ok hdr (k u)) ->
  tab_outcome plot f ok hdr (bind m k).
Proof.
  unfold tab_outcome, bind. intros Hm Hk.
  destruct (m tt) as [[[u|e|] ev] []]; [|exact Hm|exact Hm].
  specialize (Hk u). destruct (k u tt) as [[[u'|e'|] ev'] []].
  - intros H. apply in_app_or in H. tauto.
  - destruct Hk as [Hk Hfig]. split; [|exact Hfig].
    intros H. apply in_app_or in H. tauto.
  - exact Hk.
Qed.

(** For a frame without rows each of the three chart tabs writes its
    heading and the notice that there is no data, and the raw data tab
    follows. *)
Lemma tabs_on_empty_selection (filtered_df agent_df property_df merged_df : frame) :
  frame_empty filtered_df = true ->
  tabs plot filtered_df agent_df property_df merged_df
  = (no_data_elements ++ raw_data_elements agent_df property_df merged_df, None).
Proof.
  intros He. unfold tabs, tab_property_overview, tab_agent_performance,
    tab_location_analysis, tab_raw_data.
  rewrite He. reflexivity.
Qed.

Ltac tab_steps ok_tac :=
  repeat first
    [ apply tab_outcome_bind; [|intros]
    | apply tab_outcome_emit; discriminate
    | apply tab_outcome_draw; [ok_tac | discriminate] ].

(** The three chart tabs end normally or by an exception of [plot], and
    do not write the raw data heading. With the display columns present,
    the figure that failed names only columns of the frame. *)
Lemma chart_tabs_outcome (f : frame) (ok : figure -> Prop) :
  (forall fig, ok fig) \/
  ((forall c, In c display_columns -> In c (columns f)) /\ ok = names_present_columns f) ->
  tab_outcome plot f ok (Header "Raw Data Tables") (tab_property_overview plot f) /\
  tab_outcome plot f ok (Header "Raw Data Tables") (tab_agent_performance plot f) /\
  tab_outcome plot f ok (Header "Raw Data Tables") (tab_location_analysis plot f).
Proof.
  intros Hok.
  assert (Hfig : forall fig,
            (forall c, In c (figure_columns fig) ->
                       has_column f c = true \/ In c display_columns) -> ok fig).
  { intros fig Hcols. destruct Hok as [Hall | [Hschema ->]]; [apply Hall|].
    intros c Hc. destruct (Hcols c Hc) as [H|H]; [now apply has_column_true | auto]. }
  unfold tab_property_overview, tab_agent_performance, tab_location_analysis.
  destruct (frame_empty f); cbn [negb];
    [repeat split; tab_steps idtac|].
  destruct (has_column f "propertyType") eqn:Hpt, (has_column f "price") eqn:Hpr,
    (has_column f "area") eqn:Har, (has_column f "agent_companyName") eqn:Hac,
    (has_column f "city") eqn:Hci, (has_column f "x") eqn:Hx, (has_column f "y") eqn:Hy;
    cbn [andb];
    try destruct (negb (all_null "x" f && all_null "y" f));
    (repeat split;
     tab_steps ltac:(apply Hfig; intros c Hc; simpl in Hc;
                     repeat (destruct Hc as [<-|Hc]); try contradiction;
                     first [left; assumption | right; simpl; tauto])).
Qed.

(** The four tabs in terms of the three chart tabs. *)
Lemma tabs_compose (f a p m : frame) (ok : figure -> Prop) :
  tab_outcome plot f ok (Header "Raw Data Tables") (tab_property_overview plot f) ->
  tab_outcome plot f ok (Header "Raw Data Tables") (tab_agent_performance plot f) ->
  tab_outcome plot f ok (Header "Raw Data Tables") (tab_location_analysis plot f) ->
  tabs_outcome plot f ok (raw_data_elements a p m) (tabs plot f a p m).
Proof.
  intros H1 H2 H3.
  unfold tabs, tabs_outcome, bind. unfold tab_outcome in H1, H2, H3.
  destruct (tab_property_overview plot f tt) as [[[u1|e1|] ev1] []];
    [|exact H1|contradiction].
  destruct (tab_agent_performance plot f tt) as [[[u2|e2|] ev2] []];
    [|destruct H2 as [H2 Hf]; split; [intros H; apply in_app_or in H; tauto | exact Hf]
     |contradiction].
  destruct (tab_location_analysis plot f tt) as [[[u3|e3|] ev3] []];
    [|destruct H3 as [H3 Hf]; split;
      [intros H; apply in_app_or in H; destruct H as [H|H]; [tauto|];
       apply in_app_or in H; tauto | exact Hf]
     |contradiction].
  cbn. exists (ev1 ++ ev2 ++ ev3). split; [now rewrite <- !app_assoc|].
  intros H. apply in_app_or in H. destruct H as [H|H]; [tauto|].
  apply in_app_or in H. tauto.
Qed.

(** X19. The raw data tab is written exactly when no chart failed. If
    the four tabs end normally their last elements are the three raw
    tables; if they end by an exception, it is the one pandas or plotly
    gave for a chart, and the raw tables are not shown. *)
Theorem raw_tables_need_all_charts (filtered_df agent_df property_df merged_df : frame) :
  tabs_outcome plot filtered_df (fun _ => True)
    (raw_data_elements agent_df property_df merged_df)
    (tabs plot filtered_df agent_df property_df merged_df).
Proof.
  destruct (chart_tabs_outcome filtered_df (fun _ => True)) as (H1 & H2 & H3); [now left|].
  now apply tabs_compose.
Qed.

(** X20. With the columns [propertyType], [title], [city], [address]
    and [price] in the filtered frame, no chart is asked to use a column
    the frame lacks: if the tabs end by an exception, it came from a figure
    all of whose columns are there. *)
Theorem charts_name_present_columns (filtered_df agent_df property_df merged_df : frame) :
  (forall c, In c display_columns -> In c (columns filtered_df)) ->
  tabs_outcome plot filtered_df (names_present_columns filtered_df)
    (raw_data_elements agent_df property_df merged_df)
    (tabs plot filtered_df agent_df property_df merged_df).
Proof.
  intros Hschema.
  destruct (chart_tabs_outcome filtered_df (names_present_columns filtered_df))
    as (H1 & H2 & H3); [right; split; [exact Hschema | reflexivity]|].
  now apply tabs_compose.
Qed.

(** X21. The scatter plot is guarded for [area] and [price] only, and
    names [propertyType], [title] and [city] as well. So whenever plotly
    refuses a figure that names a column the frame lacks, a filtered frame
    with rows, with [area] and [price], and without one of those three
    columns ends the tabs by an exception: the scatter plot is not drawn
    and the raw data tab is not reached. *)
Theorem scatter_names_unchecked_columns
    (filtered_df agent_df property_df merged_df : frame) :
  (forall fig df, ~ names_present_columns df fig -> plot fig df <> None) ->
  frame_empty filtered_df = false ->
  In "area" (columns filtered_df) ->
  In "price" (columns filtered_df) ->
  (~ In "propertyType" (columns filtered_df) \/ ~ In "title" (columns filtered_df) \/
   ~ In "city" (columns filtered_df)) ->
  exists e,
    snd (tabs plot filtered_df agent_df property_df merged_df) = Some e /\
    ~ In (Chart "Property Area vs. Price" filtered_df)
         (fst (tabs plot filtered_df agent_df property_df merged_df)) /\
    ~ In (Header "Raw Data Tables")
         (fst (tabs plot filtered_df agent_df property_df merged_df)).
Proof.
  intros Hplot He Har Hpr Hmiss.
  apply has_column_true in Har. apply has_column_true in Hpr.
  assert (Hscatter : plot (Scatter "area" "price" "propertyType" ["title"; "city"])
                          filtered_df <> None).
  { apply Hplot. intros Hall. unfold names_present_columns in Hall. simpl in Hall.
    destruct Hmiss as [H|[H|H]]; apply H, Hall; tauto. }
  unfold tabs, tab_property_overview, bind, draw, emit, raise.
  rewrite He, Har, Hpr. cbn [negb andb].
  destruct (has_column filtered_df "propertyType");
    repeat match goal with
      | |- context [plot ?fig filtered_df] =>
          let E := fresh "E" in
          destruct (plot fig filtered_df) as [?|] eqn:E;
          [|try (exfalso; apply Hscatter; reflexivity)]
      end;
    cbn; (eexists; split; [reflexivity|]; split;
          intros H; repeat (destruct H as [H|H]; [discriminate H|]); exact H).
Qed.

End TabsFacts.

(** ** The page with its tabs *)

Section TabsPage.

Variable keys_mergeable : list value -> list value -> bool.
Variable keys_as_float : list value -> list value -> bool.
Variable user_choice : string -> nat.
Variable plot : figure -> frame -> option exn.

(** X18. A selection that matches no row never breaks the page,
    whatever pandas and plotly would do: the page shows the heading
    "Filtered Data (0 rows)", the empty frame, in each chart tab the notice
    that there is no data, and the raw tables, and ends normally. *)
Theorem empty_selection_page (agent_df property_df m : frame) (w : world) :
  frame_empty agent_df = false ->
  frame_empty property_df = false ->
  merge_and_enrich keys_mergeable keys_as_float property_df agent_df = Ok m ->
  List.filter
    (row_selected m
       (selectbox_value user_choice "Select Property Type" (filter_options "propertyType" m))
       (selectbox_value user_choice "Select City" (filter_options "city" m))
       (selectbox_value user_choice "Select Agent Company"
                        (filter_options "agent_companyName" m)))
    (rows m) = [] ->
  pipeline keys_mergeable keys_as_float user_choice (tabs plot) agent_df property_df w
  = (Done tt,
     [Success "✅ Connected to database and fetched data.";
      Subheader "Combined Property and Agent Data";
      Dataframe (head_frame m);
      SidebarHeader "Filters";
      Selectbox "Select Property Type" (filter_options "propertyType" m);
      Selectbox "Select City" (filter_options "city" m);
      Selectbox "Select Agent Company" (filter_options "agent_companyName" m);
      Subheader "Filtered Data (0 rows)";
      Dataframe (Frame (columns m) [])]
       ++ no_data_elements ++ raw_data_elements agent_df property_df m,
     w).
Proof.
  intros Ea Ep Hm Hnone.
  rewrite (pipeline_shows_filtered keys_mergeable keys_as_float user_choice (tabs plot) _ _ _ w Ea Ep Hm).
  cbv zeta. rewrite Hnone.
  rewrite (tabs_on_empty_selection plot (Frame (columns m) []) agent_df property_df m)
    by (unfold frame_empty; cbn [columns rows]; now destruct (columns m)).
  reflexivity.
Qed.

End TabsPage.

(** ** Concrete runs of the further properties *)


Lemma merge_collision_raises_witness :
  exists t,
    In t agent_attr_columns /\ In t (columns ex_collide) /\
    merge_and_enrich same_kind_keys null_makes_float ex_collide ex_agents = Raise (KeyError [t]).
Proof.
  refine (merge_collision_raises same_kind_keys null_makes_float ex_collide ex_agents _ _ _ _ _).
  - reflexivity.
  - right. left. reflexivity.
  - reflexivity.
  - exists "agent_email". split; [right; left; reflexivity | right; right; left; reflexivity].
  - intros t Ht _ H. simpl in Ht.
    destruct Ht as [<-|[<-|[<-|[]]]]; simpl in H; intuition discriminate.
Defined.

Lemma enriched_frame_invariants_witness :
  columns ex_enriched = columns ex_properties ++ agent_attr_columns /\
  well_formed ex_enriched /\
  forall r t, In r (rows ex_enriched) -> In t agent_attr_columns ->
              value_at ex_enriched t r <> VNull.
Proof.
  exact (enriched_frame_invariants same_kind_keys null_makes_float ex_properties ex_agents ex_enriched
           ex_well_formed eq_refl).
Defined.

Lemma merge_keeps_property_rows_witness :
  map (property_part ex_properties) (rows ex_enriched) = rows ex_properties.
Proof.
  exact (proj1 (merge_keeps_property_rows same_kind_keys null_makes_float ex_properties ex_agents ex_enriched
                  ex_well_formed eq_refl)).
Defined.


Lemma offered_option_selects_rows_witness :
  exists out,
    filter_step "propertyType" (VText "House") ex_enriched = Ok out /\
    columns out = columns ex_enriched /\
    rows out <> [] /\
    forall r, In r (rows out) ->
              In r (rows ex_enriched) /\ value_at ex_enriched "propertyType" r = VText "House".
Proof.
  refine (offered_option_selects_rows "propertyType" ex_enriched (VText "House") _ _ _).
  - right. left. reflexivity.
  - discriminate.
  - discriminate.
Defined.

Lemma null_option_selects_nothing_witness :
  offered "city" ex_null_city VNull /\
  filter_step "city" VNull ex_null_city = Ok (Frame (columns ex_null_city) []).
Proof.
  refine (null_option_selects_nothing "city" ex_null_city 1 _ _).
  - reflexivity.
  - left. reflexivity.
Defined.

Lemma filter_idempotent_witness :
  apply_filters
    (Frame (columns ex_enriched)
           [[VNum 1; VNum 10; VText "House"; VText "Metropolis"; VNum 200000;
             VText "Acme Realty"; VText "a@x.com"; VText "555"]])
    (VText "House") (VText "All") (VText "All")
  = Ok (Frame (columns ex_enriched)
              [[VNum 1; VNum 10; VText "House"; VText "Metropolis"; VNum 200000;
                VText "Acme Realty"; VText "a@x.com"; VText "555"]]).
Proof.
  exact (filter_idempotent ex_enriched _ (VText "House") (VText "All") (VText "All")
           ex_filter_house).
Defined.

Lemma failed_fetch_is_cached_witness :
  exists w1,
    fetch_data_cached ex_refuse ex_query (connection_settings ex_env) 0 "Agent" 1000 ex_world
    = (Done empty_frame,
       [fetch_error_notice "Agent" "SSL connection has been closed unexpectedly"], w1) /\
    attempts w1 = attempts ex_world ++ [connection_settings ex_env] /\
    fetch_data_cached ex_refuse ex_query (connection_settings ex_env) 10 "Agent" 1000 w1
    = (Done empty_frame,
       [fetch_error_notice "Agent" "SSL connection has been closed unexpectedly"], w1).
Proof.
  refine (failed_fetch_is_cached ex_refuse ex_query (connection_settings ex_env)
            "Agent" 1000 0 10 ex_world _ _ _ _).
  - reflexivity.
  - left. reflexivity.
  - reflexivity.
Defined.

Lemma stale_entry_is_refetched_witness :
  exists df ev w',
    fetch_data_cached ex_connect ex_query (connection_settings ex_env) 300 "Agent" 1000
                      ex_world_cached
    = (Done df, ev, w') /\
    fetch_data ex_connect ex_query (connection_settings ex_env) "Agent" 1000 ex_world_cached
    = (Done df, ev, World (attempts w') (live w') (issued w') (cache ex_world_cached)) /\
    attempts w' = attempts ex_world_cached ++ [connection_settings ex_env] /\
    cache w' = <[("Agent", 1000%Z) := CacheEntry df ev 300]> (cache ex_world_cached).
Proof.
  refine (stale_entry_is_refetched ex_connect ex_query (connection_settings ex_env)
            "Agent" 1000 300 ex_world_cached (CacheEntry ex_agents [] 0) _ _).
  - reflexivity.
  - discriminate.
Defined.

Lemma rerun_within_ttl_repeats_page_witness :
  app same_kind_keys null_makes_float ex_connect ex_query ex_choice ex_tabs ex_env_full 100
      (snd (app same_kind_keys null_makes_float ex_connect ex_query ex_choice ex_tabs ex_env_full 0 ex_world))
  = app same_kind_keys null_makes_float ex_connect ex_query ex_choice ex_tabs ex_env_full 0 ex_world.
Proof.
  destruct (app same_kind_keys null_makes_float ex_connect ex_query ex_choice ex_tabs ex_env_full 0 ex_world)
    as [[r ev] w1] eqn:Hrun.
  cbn [snd].
  refine (rerun_within_ttl_repeats_page same_kind_keys null_makes_float ex_connect ex_query ex_choice ex_tabs
            ex_env_full 0 100 ex_world w1 r ev _ _ _ Hrun).
  - reflexivity.
  - reflexivity.
  - reflexivity.
Defined.

Lemma database_down_page_witness :
  exists w',
    app same_kind_keys null_makes_float ex_refuse ex_query ex_choice ex_tabs ex_env_full 0 ex_world
    = (Stopped,
       startup_elements ex_env_full ++
         [fetch_error_notice (py_str (ex_env_full !! "DB_TABLE_AGENT"))
                             "SSL connection has been closed unexpectedly";
          fetch_error_notice (py_str (ex_env_full !! "DB_TABLE_PROPERTY"))
                             "SSL connection has been closed unexpectedly";
          Warning "⚠️ No data returned from either Agent or Property tables."],
       w') /\
    issued w' = issued ex_world /\ live w' = live ex_world.
Proof.
  refine (database_down_page same_kind_keys null_makes_float ex_refuse ex_query ex_choice ex_tabs
            ex_env_full 0 ex_world "SSL connection has been closed unexpectedly" _ _ _ _ _).
  - intros n. reflexivity.
  - reflexivity.
  - reflexivity.
  - reflexivity.
  - reflexivity.
Defined.

Lemma untouched_boxes_show_all_witness :
  fst (pipeline same_kind_keys null_makes_float ex_choice ex_tabs ex_agents ex_properties ex_world)
  = (Done tt,
     [Success "✅ Connected to database and fetched data.";
      Subheader "Combined Property and Agent Data";
      Dataframe (head_frame ex_enriched);
      SidebarHeader "Filters";
      Selectbox "Select Property Type" (filter_options "propertyType" ex_enriched);
      Selectbox "Select City" (filter_options "city" ex_enriched);
      Selectbox "Select Agent Company" (filter_options "agent_companyName" ex_enriched);
      Subheader ("Filtered Data (" +:+ pretty (frame_len ex_enriched) +:+ " rows)");
      Dataframe ex_enriched;
      Header "Property Overview"]).
Proof.
  rewrite (untouched_boxes_show_all same_kind_keys null_makes_float ex_choice ex_tabs ex_agents ex_properties
             ex_enriched ex_world (fun _ => eq_refl) eq_refl eq_refl eq_refl).
  reflexivity.
Defined.

Lemma empty_selection_page_witness :
  fst (fst (pipeline same_kind_keys null_makes_float ex_pick (tabs ex_plot) ex_agents ex_properties ex_world))
  = Done tt.
Proof.
  rewrite (empty_selection_page same_kind_keys null_makes_float ex_pick ex_plot ex_agents ex_properties
             ex_enriched ex_world eq_refl eq_refl eq_refl eq_refl).
  reflexivity.
Defined.

Lemma ex_plot_refuses (fig : figure) (df : frame) :
  ~ names_present_columns df fig -> ex_plot fig df <> None.
Proof.
  intros Hmiss. unfold ex_plot.
  destruct (forallb (has_column df) (figure_columns fig)) eqn:E; [|discriminate].
  exfalso. apply Hmiss. intros c Hc. rewrite forallb_forall in E.
  now apply has_column_true, E.
Qed.

Lemma charts_name_present_columns_witness :
  tabs_outcome ex_plot ex_titled (names_present_columns ex_titled)
    (raw_data_elements ex_agents ex_properties ex_enriched)
    (tabs ex_plot ex_titled ex_agents ex_properties ex_enriched).
Proof.
  refine (charts_name_present_columns ex_plot ex_titled ex_agents ex_properties ex_enriched _).
  intros c Hc. simpl in Hc |- *. tauto.
Defined.

Lemma scatter_names_unchecked_columns_witness :
  exists e,
    snd (tabs ex_plot ex_untitled ex_agents ex_properties ex_enriched) = Some e /\
    ~ In (Chart "Property Area vs. Price" ex_untitled)
         (fst (tabs ex_plot ex_untitled ex_agents ex_properties ex_enriched)) /\
    ~ In (Header "Raw Data Tables")
         (fst (tabs ex_plot ex_untitled ex_agents ex_properties ex_enriched)).
Proof.
  refine (scatter_names_unchecked_columns ex_plot ex_untitled ex_agents ex_properties
            ex_enriched ex_plot_refuses eq_refl _ _ _).
  - simpl. tauto.
  - simpl. tauto.
  - right. left. simpl. intros H. repeat (destruct H as [H|H]; [discriminate H|]). exact H.
Defined.

